(** * OpenBB documentation server: TOC parser and section extractor

    A shallow embedding of [server.py].  The two text transforms
    ([_parse_toc], [_find_section_content] with its driver
    [_extract_sections_from_docs]) are pure functions over Python [str]
    values; the two tool bodies ([_identify_sections_async],
    [_fetch_content_async]) are a [try]/[except] around one document fetch.

    Modelling conventions.
    - A Python [str] is a [string]: a sequence of 8-bit characters, read as
      the code points U+0000..U+00FF.  [str.lower] and [str.strip] are the
      restrictions of the Python methods to that range.
    - A Python [dict] keyed by [str] is a [gmap string _]; the record-like
      dicts with a fixed set of keys are records.
    - A raised [Exception] is the [Raise] branch of [outcome]. *)

From Stdlib Require Import Ascii String.
From stdpp Require Import base list strings gmap fin_maps.

Local Open Scope stdpp_scope.

(** ** Python string primitives *)

Module Py.

(** Code point of a character. *)
Definition ord (c : ascii) : nat := nat_of_ascii c.

(** [str.isspace] on one character (code points below 256):
    TAB, LF, VT, FF, CR, FS, GS, RS, US, SPACE, NEL and NBSP. *)
Definition isspace (c : ascii) : bool :=
  let n := ord c in
  ((9 <=? n) && (n <=? 13)) || ((28 <=? n) && (n <=? 32))
  || (n =? 133) || (n =? 160).

(** [str.lower] on one character: A-Z and the capital letters of U+00C0..U+00DE
    (all but the multiplication sign U+00D7) move up by 32. *)
Definition lower_char (c : ascii) : ascii :=
  let n := ord c in
  if ((65 <=? n) && (n <=? 90))
     || ((192 <=? n) && (n <=? 222) && negb (n =? 215))
  then ascii_of_nat (n + 32) else c.

(** [s.lower()] *)
Fixpoint lower (s : string) : string :=
  match s with
  | EmptyString => EmptyString
  | String c s' => String (lower_char c) (lower s')
  end.

(** [s.lstrip()] *)
Fixpoint lstrip (s : string) : string :=
  match s with
  | EmptyString => EmptyString
  | String c s' => if isspace c then lstrip s' else s
  end.

(** [s.rstrip()] *)
Fixpoint rstrip (s : string) : string :=
  match s with
  | EmptyString => EmptyString
  | String c s' =>
      match rstrip s' with
      | EmptyString => if isspace c then EmptyString else String c EmptyString
      | r => String c r
      end
  end.

(** [s.strip()] *)
Definition strip (s : string) : string := lstrip (rstrip s).

(** [s.startswith(p)] *)
Fixpoint startswith (p s : string) : bool :=
  match p, s with
  | EmptyString, _ => true
  | String a p', String b s' => if Ascii.eqb a b then startswith p' s' else false
  | String _ _, EmptyString => false
  end.

(** [s.startswith((p1, ..., pn))] *)
Definition startswith_any (ps : list string) (s : string) : bool :=
  existsb (fun p => startswith p s) ps.

(** [p in s] *)
Fixpoint contains (p s : string) : bool :=
  startswith p s
  || match s with
     | EmptyString => false
     | String _ s' => contains p s'
     end.

(** [s.split(sep)] for a one-character separator: never the empty list. *)
Fixpoint split (sep : ascii) (s : string) : list string :=
  match s with
  | EmptyString => [EmptyString]
  | String c s' =>
      if Ascii.eqb c sep then EmptyString :: split sep s'
      else match split sep s' with
           | l :: ls => String c l :: ls
           | [] => [String c EmptyString]
           end
  end.

(** [sep.join(ls)] *)
Fixpoint join (sep : string) (ls : list string) : string :=
  match ls with
  | [] => EmptyString
  | [x] => x
  | x :: xs => x +:+ sep +:+ join sep xs
  end.

(** [s.replace(old, new)] for a one-character [old]. *)
Fixpoint replace (old : ascii) (new : string) (s : string) : string :=
  match s with
  | EmptyString => EmptyString
  | String c s' =>
      if Ascii.eqb c old then new +:+ replace old new s'
      else String c (replace old new s')
  end.

(** Truth value of a [str]: every string but the empty one. *)
Definition truthy (s : string) : bool :=
  match s with EmptyString => false | String _ _ => true end.

(** [s == t] *)
Definition eqb (s t : string) : bool := bool_decide (s = t).

End Py.

(** The line-feed character and the one-character string ['\n']. *)
Definition LF : ascii := "010"%char.
Definition NL : string := String LF EmptyString.

(** ** Section extractor *)

(** [patterns_to_try] of [_find_section_content]. *)
Definition patterns_to_try (title : string) : list string :=
  [ "# " +:+ title;
    "## " +:+ title;
    "### " +:+ title;
    title;
    Py.lower title;
    Py.lower (Py.replace " "%char "-" title) ].

(** The test of the inner [for]:
    [pattern in line.lower() or line.lower().strip() == pattern]. *)
Definition line_matches (pattern line : string) : bool :=
  Py.contains pattern (Py.lower line)
  || Py.eqb (Py.strip (Py.lower line)) pattern.

(** The [break] test of the [while] loop, on [current_line = lines[j].strip()]
    and the matched [line].  Python's [and] binds tighter than [or]. *)
Definition is_boundary (line current_line : string) : bool :=
  Py.startswith "# " current_line
  || (Py.startswith "## " current_line
      && negb (Py.eqb current_line (Py.strip line))).

Definition TRUNCATION_MARKER : string := "... (content truncated)".

(** The [while j < len(lines)] loop.  [rest] is [lines[j:]]; the result is
    [content_lines] when the loop is left. *)
Fixpoint accumulate (line : string) (content_lines rest : list string)
  : list string :=
  match rest with
  | [] => content_lines
  | lines_j :: rest' =>
      let current_line := Py.strip lines_j in
      if is_boundary line current_line then content_lines
      else
        let content_lines := content_lines ++ [lines_j] in
        if 100 <? length content_lines
        then content_lines ++ [TRUNCATION_MARKER]
        else accumulate line content_lines rest'
  end.

(** The inner [for i, line in enumerate(lines)] for one pattern: the text
    returned at the first matching line, or [None] when the loop runs out. *)
Fixpoint scan_lines (pattern : string) (lines : list string) : option string :=
  match lines with
  | [] => None
  | line :: rest =>
      if line_matches pattern line
      then Some (Py.join NL (accumulate line [line] rest))
      else scan_lines pattern rest
  end.

(** The outer [for pattern in patterns_to_try]. *)
Fixpoint try_patterns (patterns lines : list string) : option string :=
  match patterns with
  | [] => None
  | pattern :: patterns' =>
      match scan_lines pattern lines with
      | Some content => Some content
      | None => try_patterns patterns' lines
      end
  end.

Definition _find_section_content (full_docs title : string) : option string :=
  let lines := Py.split LF full_docs in
  try_patterns (patterns_to_try title) lines.

(** [f"Section '{title}' not found in documentation."] *)
Definition not_found (title : string) : string :=
  "Section '" +:+ title +:+ "' not found in documentation.".

(** One iteration of the [for title in section_titles] loop. *)
Definition extract_one (full_docs : string) (content_sections : gmap string string)
    (title : string) : gmap string string :=
  match _find_section_content full_docs title with
  | Some section_content =>
      if Py.truthy section_content
      then <[title := section_content]> content_sections
      else <[title := not_found title]> content_sections
  | None => <[title := not_found title]> content_sections
  end.

Definition _extract_sections_from_docs (full_docs : string)
    (section_titles : list string) : gmap string string :=
  foldl (extract_one full_docs) ∅ section_titles.

(** A document given by its lines. *)
Definition doc (ls : list string) : string := Py.join NL ls.

(** ** TOC parser *)

(** One section dict: the keys ["title"], ["category"], ["url"] and
    ["description"]. *)
Record SectionRecord := mkSectionRecord {
  title : string;
  category : string;
  url : string;
  description : string
}.

Global Instance SectionRecord_eq_dec : EqDecision SectionRecord.
Proof. solve_decision. Defined.

(** The regular expression [\[([^\]]+)\]\(([^)]+)\)] of [_parse_toc].

    [span_not c s] is the longest prefix of [s] free of [c], with what
    follows it: the only way a greedy [[^c]+] can be followed by [c]. *)
Fixpoint span_not (c : ascii) (s : string) : string * string :=
  match s with
  | EmptyString => (EmptyString, EmptyString)
  | String a s' =>
      if Ascii.eqb a c then (EmptyString, s)
      else let (g, r) := span_not c s' in (String a g, r)
  end.

(** The match attempt at one start position, on the text after the opening
    bracket: the groups 1 and 2, when the expression matches there. *)
Definition match_link_at (s : string) : option (string * string) :=
  match span_not "]" s with
  | (group1, String _ (String c s2)) =>
      if Py.truthy group1 && Ascii.eqb c "("
      then match span_not ")" s2 with
           | (group2, String _ _) =>
               if Py.truthy group2 then Some (group1, group2) else None
           | _ => None
           end
      else None
  | _ => None
  end.

(** [re.search]: the match at the leftmost start position that has one. *)
Fixpoint re_search_link (line : string) : option (string * string) :=
  match line with
  | EmptyString => None
  | String c line' =>
      if Ascii.eqb c "["
      then match match_link_at line' with
           | Some groups => Some groups
           | None => re_search_link line'
           end
      else re_search_link line'
  end.

(** The markers of [line.startswith(('-', '*', '1.', ...))]. *)
Definition BULLET_MARKERS : list string :=
  ["-"; "*"; "1."; "2."; "3."; "4."; "5."].

(** The local variables that the loop of [_parse_toc] updates. *)
Record toc_state := mkTocState {
  sections : list SectionRecord;
  current_category : string
}.

(** [query and query.lower() not in title.lower()
     and query.lower() not in current_category.lower()] *)
Definition query_rejects (query : option string) (title current_category : string)
  : bool :=
  match query with
  | None => false
  | Some q =>
      Py.truthy q
      && negb (Py.contains (Py.lower q) (Py.lower title))
      && negb (Py.contains (Py.lower q) (Py.lower current_category))
  end.

(** [f"{current_category}: {title}" if current_category else title] *)
Definition describe (current_category title : string) : string :=
  if Py.truthy current_category
  then current_category +:+ ": " +:+ title
  else title.

(** The body of [for line in lines]. *)
Definition parse_line (query : option string) (st : toc_state) (line : string)
  : toc_state :=
  let line := Py.strip line in
  if negb (Py.truthy line) then st
  else if negb (Py.startswith_any BULLET_MARKERS line) then
    if Py.truthy line && negb (Py.startswith "#" line)
       && negb (Py.startswith "http" line)
    then mkTocState (sections st) (Py.strip (Py.replace "#" "" line))
    else st
  else
    match re_search_link line with
    | None => st
    | Some (group1, group2) =>
        let title := Py.strip group1 in
        let url := Py.strip group2 in
        if query_rejects query title (current_category st) then st
        else
          mkTocState
            (sections st ++
             [ mkSectionRecord title (current_category st) url
                 (describe (current_category st) title) ])
            (current_category st)
    end.

Definition _parse_toc (toc_content : string) (query : option string)
  : list SectionRecord :=
  let lines := Py.split LF (Py.strip toc_content) in
  sections (foldl (parse_line query) (mkTocState [] "") lines).

(** ** The two tool bodies *)

(** What a call that may raise yields: its value, or the [Exception] it
    raised, kept as its message [str(e)]. *)
Inductive outcome (A : Type) : Type :=
| Return (a : A)
| Raise (message : string).
Arguments Return {A} a.
Arguments Raise {A} message.

Global Instance outcome_ret : MRet outcome := fun A a => Return a.
Global Instance outcome_bind : MBind outcome := fun A B k m =>
  match m with
  | Return a => k a
  | Raise e => Raise e
  end.

(** [try: body  except Exception as e: handler(str(e))] *)
Definition try_except {A : Type} (body : outcome A) (handler : string -> A) : A :=
  match body with
  | Return a => a
  | Raise e => handler e
  end.

(** The dict returned by [_identify_sections_async]; a key that a branch
    leaves out is [None]. *)
Module IdentifyResult.
Record t := mk {
  success : bool;
  error : option string;
  query : string;
  raw_toc_content : string;
  instruction : option string
}.
End IdentifyResult.

(** The dict returned by [_fetch_content_async]. *)
Module FetchResult.
Record t := mk {
  success : bool;
  error : option string;
  user_query : string;
  extracted_content : gmap string string;
  sections_found : option nat;
  instruction : option string
}.
End FetchResult.

Definition TOC_URL : string := "https://docs.openbb.co/workspace/llms.txt".
Definition FULL_DOCS_URL : string := "https://docs.openbb.co/workspace/llms-full.txt".

Section Tools.
(** The document fetch: [client.get(url)], [response.raise_for_status()]
    and [response.text] under the client's timeout.  It returns the text
    or raises. *)
Variable http_get_text : string -> outcome string.
(** The instruction text of [_identify_sections_async], a literal. *)
Variable IDENTIFY_INSTRUCTION : string.
(** The instruction template of [_fetch_content_async] filled in by
    [.format(query=user_query)].  The template holds brace groups besides
    [{query}], and [str.format] raises on a field it cannot resolve: the
    call returns the text or raises. *)
Variable format_instruction : string -> outcome string.

Definition _identify_sections_async (user_query : string) : IdentifyResult.t :=
  try_except
    (toc_content ← http_get_text TOC_URL;
     mret {| IdentifyResult.success := true;
             IdentifyResult.error := None;
             IdentifyResult.query := user_query;
             IdentifyResult.raw_toc_content := toc_content;
             IdentifyResult.instruction := Some IDENTIFY_INSTRUCTION |})
    (fun e =>
       {| IdentifyResult.success := false;
          IdentifyResult.error := Some e;
          IdentifyResult.query := user_query;
          IdentifyResult.raw_toc_content := "";
          IdentifyResult.instruction := None |}).

Definition _fetch_content_async (section_titles : list string)
    (user_query : string) : FetchResult.t :=
  try_except
    (full_docs ← http_get_text FULL_DOCS_URL;
     let content_sections :=
       _extract_sections_from_docs full_docs section_titles in
     text ← format_instruction user_query;
     mret {| FetchResult.success := true;
             FetchResult.error := None;
             FetchResult.user_query := user_query;
             FetchResult.extracted_content := content_sections;
             FetchResult.sections_found := Some (size content_sections);
             FetchResult.instruction := Some text |})
    (fun e =>
       {| FetchResult.success := false;
          FetchResult.error := Some e;
          FetchResult.user_query := user_query;
          FetchResult.extracted_content := ∅;
          FetchResult.sections_found := None;
          FetchResult.instruction := None |}).
End Tools.

(** ** The matching rule in the words of the specification *)

(** "A line matches if the pattern (compared case-insensitively) is a
    substring of the line OR the line, stripped and lowercased, equals the
    pattern exactly": both sides of the substring test are lowercased. *)
Definition spec_line_matches (pattern line : string) : bool :=
  Py.contains (Py.lower pattern) (Py.lower line)
  || Py.eqb (Py.strip (Py.lower line)) pattern.

Fixpoint spec_scan_lines (pattern : string) (lines : list string) : option string :=
  match lines with
  | [] => None
  | line :: rest =>
      if spec_line_matches pattern line
      then Some (Py.join NL (accumulate line [line] rest))
      else spec_scan_lines pattern rest
  end.

Fixpoint spec_try_patterns (patterns lines : list string) : option string :=
  match patterns with
  | [] => None
  | pattern :: patterns' =>
      match spec_scan_lines pattern lines with
      | Some content => Some content
      | None => spec_try_patterns patterns' lines
      end
  end.

Definition spec_find_section (full_docs title : string) : option string :=
  spec_try_patterns (patterns_to_try title) (Py.split LF full_docs).

(** ** Vocabulary of the properties *)

(** [p] occurs in [s] as a contiguous run of characters. *)
Definition occurs_in (p s : string) : Prop := ∃ a b, s = a +:+ p +:+ b.

(** [c] is one of the characters of [s]. *)
Fixpoint has_char (c : ascii) (s : string) : bool :=
  match s with
  | EmptyString => false
  | String a s' => Ascii.eqb a c || has_char c s'
  end.

(** The three heading prefixes of the pattern list. *)
Definition heading_prefix (h : string) : Prop :=
  h = "# " ∨ h = "## " ∨ h = "### ".

(** The marker line, when the loop appended it. *)
Definition marker_if (b : bool) : list string :=
  if b then [TRUNCATION_MARKER] else [].

(** The value that [_extract_sections_from_docs] stores under a title. *)
Definition section_entry (full_docs title : string) : string :=
  match _find_section_content full_docs title with
  | Some section_content =>
      if Py.truthy section_content then section_content else not_found title
  | None => not_found title
  end.

(** The record kept by the query filter: the query, in lower case, occurs in
    the lowercased title or in the lowercased category. *)
Definition query_hits (q : string) (r : SectionRecord) : Prop :=
  Py.contains (Py.lower q) (Py.lower (title r)) = true
  ∨ Py.contains (Py.lower q) (Py.lower (category r)) = true.

(** What the filtered run and the unfiltered run of the parser loop have in
    common after the same lines. *)
Definition filter_inv (q : string) (st1 st2 : toc_state) : Prop :=
  current_category st1 = current_category st2
  ∧ sections st1 `sublist_of` sections st2
  ∧ Forall (query_hits q) (sections st1).

(** The record comes from a link of the text: its title and url are the
    stripped texts of the two groups of an occurrence of [[group1](group2)],
    neither group empty, the first free of "]" and the second of ")". *)
Definition from_link (text : string) (r : SectionRecord) : Prop :=
  ∃ group1 group2,
    occurs_in ("[" +:+ group1 +:+ "](" +:+ group2 +:+ ")") text
    ∧ group1 ≠ "" ∧ group2 ≠ ""
    ∧ has_char "]" group1 = false ∧ has_char ")" group2 = false
    ∧ title r = Py.strip group1 ∧ url r = Py.strip group2.

(** ** Vocabulary of the further properties *)

(** The sixth pattern of [patterns_to_try]: the slug of the title. *)
Definition slug (title : string) : string :=
  Py.lower (Py.replace " " "-" title).

(** The lines that follow the matched line, up to the first boundary line. *)
Fixpoint body_lines (line : string) (rest : list string) : list string :=
  match rest with
  | [] => []
  | x :: rest' =>
      if is_boundary line (Py.strip x) then [] else x :: body_lines line rest'
  end.

(** The lines of the text returned at a matched line: the line and its body,
    cut after 100 body lines and closed by the marker when the body has 100
    lines or more. *)
Definition section_lines (line : string) (rest : list string) : list string :=
  let body := body_lines line rest in
  if length body <? 100 then line :: body
  else line :: take 100 body ++ [TRUNCATION_MARKER].

(** The line mentions the title: it holds, case of the line aside, the
    lowercased title or the slug of the title. *)
Definition mentions (title line : string) : bool :=
  Py.contains (Py.lower title) (Py.lower line)
  || Py.contains (slug title) (Py.lower line).

(** [query_hits] as a test. *)
Definition query_hitsb (q : string) (r : SectionRecord) : bool :=
  Py.contains (Py.lower q) (Py.lower (title r))
  || Py.contains (Py.lower q) (Py.lower (category r)).

(** The line is an entry line: once stripped it is not empty, starts with a
    bullet marker and holds a link. *)
Definition entry_line (line : string) : bool :=
  let line := Py.strip line in
  Py.truthy line && Py.startswith_any BULLET_MARKERS line
  && match re_search_link line with Some _ => true | None => false end.

(** The category that a line sets, when it is a category header: a line that
    once stripped is not empty and starts with no bullet marker, no hash and
    no "http". *)
Definition header_category (line : string) : option string :=
  let line := Py.strip line in
  if Py.truthy line && negb (Py.startswith_any BULLET_MARKERS line)
     && negb (Py.startswith "#" line) && negb (Py.startswith "http" line)
  then Some (Py.strip (Py.replace "#" "" line))
  else None.

(** A tidy record: the description is synthesized from category and title,
    no field carries surrounding whitespace and the category holds no hash. *)
Definition tidy (r : SectionRecord) : Prop :=
  description r = describe (category r) (title r)
  ∧ Py.strip (title r) = title r
  ∧ Py.strip (url r) = url r
  ∧ Py.strip (category r) = category r
  ∧ has_char "#" (category r) = false.

(** The record that an entry line adds under a category. *)
Definition record_of (current_category line : string) : option SectionRecord :=
  match re_search_link (Py.strip line) with
  | Some (group1, group2) =>
      Some (mkSectionRecord (Py.strip group1) current_category (Py.strip group2)
              (describe current_category (Py.strip group1)))
  | None => None
  end.

(** Where a category comes from: nowhere, or a header line among [all]. *)
Definition category_from (all : list string) (c : string) : Prop :=
  c = "" ∨ ∃ l, l ∈ all ∧ header_category l = Some c.

(** ** [str.format] with keyword arguments *)

(** The double quote, as a one-character string. *)
Definition DQ : string := String (ascii_of_nat 34) EmptyString.

Module PyFormat.

(** A printable ASCII character other than the single quote and the
    backslash. *)
Definition plain_char (c : ascii) : bool :=
  let n := Py.ord c in
  (32 <=? n) && (n <=? 126) && negb (n =? 39) && negb (n =? 92).

Fixpoint plain (s : string) : bool :=
  match s with
  | EmptyString => true
  | String c s' => plain_char c && plain s'
  end.

(** [repr(s)] for a [str] of plain characters: the text between single
    quotes.  The other strings are left out ([None]). *)
Definition repr (s : string) : option string :=
  if plain s then Some ("'" +:+ s +:+ "'") else None.

Definition is_digit (c : ascii) : bool :=
  let n := Py.ord c in (48 <=? n) && (n <=? 57).

Fixpoint has_digit (s : string) : bool :=
  match s with
  | EmptyString => false
  | String c s' => is_digit c || has_digit s'
  end.

(** The characters that open a construct left out of the fragment when they
    stand inside a replacement field: nesting, indexing, attribute access
    and conversion. *)
Definition field_special (c : ascii) : bool :=
  Ascii.eqb c "{" || Ascii.eqb c "[" || Ascii.eqb c "." || Ascii.eqb c "!".

(** The value of the replacement field [{field}]: the field name runs up to
    the first colon and is looked up among the keyword arguments.  A missing
    name raises [KeyError(name)], whose message is [repr(name)]; a name that
    is found with an empty format specification gives the value.  Empty or
    numbered names (positional arguments) and non-empty format
    specifications are left out ([None]). *)
Definition resolve (kwargs : gmap string string) (field : string)
  : option (outcome string) :=
  let (name, spec) := span_not ":" field in
  if negb (Py.truthy name) || has_digit name then None
  else match kwargs !! name with
       | None =>
           match repr name with
           | Some message => Some (Raise message)
           | None => None
           end
       | Some value =>
           match spec with
           | EmptyString | String _ EmptyString => Some (Return value)
           | _ => None
           end
       end.

(** One more character of literal text in front of what follows. *)
Definition emit (c : ascii) (rest : option (outcome string))
  : option (outcome string) :=
  match rest with
  | Some (Return s) => Some (Return (String c s))
  | other => other
  end.

(** The value of a field in front of what follows. *)
Definition emit_value (value : string) (rest : option (outcome string))
  : option (outcome string) :=
  match rest with
  | Some (Return s) => Some (Return (value +:+ s))
  | other => other
  end.

(** [template.format] with keyword arguments, read from left to right as
    Python does:
    [field] is [None] in literal text and holds the text of the replacement
    field read so far inside braces.  Doubled braces are literal braces, a
    single closing brace raises [ValueError], and the first field that
    raises ends the call, whatever follows it.  [None] marks a template
    outside the fragment. *)
Fixpoint format (kwargs : gmap string string) (field : option string)
    (template : string) : option (outcome string) :=
  match template with
  | EmptyString =>
      match field with
      | None => Some (Return EmptyString)
      | Some _ => None
      end
  | String c t =>
      match field with
      | Some f =>
          if Ascii.eqb c "}" then
            match resolve kwargs f with
            | Some (Return value) => emit_value value (format kwargs None t)
            | other => other
            end
          else if field_special c then None
          else format kwargs (Some (f +:+ String c EmptyString)) t
      | None =>
          if Ascii.eqb c "{" then
            match t with
            | String c2 t2 =>
                if Ascii.eqb c2 "{" then emit "{" (format kwargs None t2)
                else format kwargs (Some EmptyString) t
            | EmptyString => None
            end
          else if Ascii.eqb c "}" then
            match t with
            | String c2 t2 =>
                if Ascii.eqb c2 "}" then emit "}" (format kwargs None t2)
                else Some (Raise "Single '}' encountered in format string")
            | EmptyString =>
                Some (Raise "Single '}' encountered in format string")
            end
          else emit c (format kwargs None t)
      end
  end.

End PyFormat.

(** The instruction template of [_fetch_content_async], from its opening
    quotes to the end of the line [details=[{"Website": url}]]. *)
Definition FETCH_INSTRUCTION_HEAD : string :=
  Py.join NL
   [ "";
    "User's question: {query}";
    "";
    "The relevant documentation sections have been extracted above in 'extracted_content'.";
    "";
    "RESPONSE GUIDELINES:";
    "1. **Stay grounded**: Use only facts present in extracted_content. No speculation or unstated assumptions.";
    "2. **Synthesize across sections**: If the answer spans multiple sections, merge them coherently. Prefer the most specific, actionable details.";
    "3. **Cite precisely**:";
    "   - After each factual claim or step, cite the section with the shortest sufficient reference in square brackets, e.g., [Copilot Basics], [Data Handling]";
    "   - When a claim depends on multiple sections, include up to two citations, e.g.,";
    "   Make sure to follow this format or OpenBB Copilot compatibility:";
    "    If there are relevant section, make sure to include all documentation URLs in the following format:";
    "        answer=" +:+ DQ +:+ "Your answer text here" +:+ DQ +:+ ",";
    "        citations=[";
    "            Citation(";
    "                source_info=SourceInfo(type=" +:+ DQ +:+ "web" +:+ DQ +:+ ", name=url),";
    "                details=[{" +:+ DQ +:+ "Website" +:+ DQ +:+ ": url}]" ].

(** [TEMPLATE.format(query=user_query)], the template being the head above
    followed by the rest of the literal. *)
Definition format_fetch_instruction (rest user_query : string)
  : option (outcome string) :=
  PyFormat.format {[ "query" := user_query ]} None (FETCH_INSTRUCTION_HEAD +:+ rest).

(** [str(KeyError('"Website"'))] *)
Definition WEBSITE_KEY_ERROR : string := "'" +:+ DQ +:+ "Website" +:+ DQ +:+ "'".

(** ** The two tools *)

Section ToolEntryPoints.
Variable http_get_text : string -> outcome string.
Variable IDENTIFY_INSTRUCTION : string.
Variable format_instruction : string -> outcome string.

Definition identify_openbb_docs_sections (user_query : string) : IdentifyResult.t :=
  _identify_sections_async http_get_text IDENTIFY_INSTRUCTION user_query.

Definition fetch_openbb_content (section_titles : list string)
    (user_query : string) : FetchResult.t :=
  _fetch_content_async http_get_text format_instruction section_titles user_query.
End ToolEntryPoints.

(** The number of occurrences of the character [c] in [s]. *)
Fixpoint count_char (c : ascii) (s : string) : nat :=
  match s with
  | EmptyString => 0
  | String a s' => (if Ascii.eqb a c then 1 else 0) + count_char c s'
  end.

(** * Properties *)

(** ** The examples of the specification *)

Example spec_example_extract :
  _extract_sections_from_docs
    (doc ["# Copilot Basics"; "Line A"; "Line B"; "# Next Section"; "Line C"; ""])
    ["Copilot Basics"]
  = {[ "Copilot Basics" := doc ["# Copilot Basics"; "Line A"; "Line B"] ]}.
Proof. vm_compute. reflexivity. Qed.

Example spec_example_not_found :
  _extract_sections_from_docs (doc ["# Copilot Basics"; "Line A"]) ["X"]
  = {[ "X" := "Section 'X' not found in documentation." ]}.
Proof. vm_compute. reflexivity. Qed.

Example spec_example_toc :
  _parse_toc (doc ["Getting Started"; "- [Copilot Basics](https://x/copilot)"; ""]) None
  = [ mkSectionRecord "Copilot Basics" "Getting Started" "https://x/copilot"
        "Getting Started: Copilot Basics" ].
Proof. vm_compute. reflexivity. Qed.

(** ** Sample runs of the primitives *)

Example strip_sample : Py.strip "  ## Getting Started  " = "## Getting Started".
Proof. reflexivity. Qed.

Example lower_sample : Py.lower "Copilot Basics" = "copilot basics".
Proof. reflexivity. Qed.

Example split_sample : Py.split LF (doc ["a"; ""; "b"; ""]) = ["a"; ""; "b"; ""].
Proof. reflexivity. Qed.

Example split_empty_sample : Py.split LF "" = [""].
Proof. reflexivity. Qed.

Example slug_sample :
  patterns_to_try "Copilot Basics"
  = ["# Copilot Basics"; "## Copilot Basics"; "### Copilot Basics";
     "Copilot Basics"; "copilot basics"; "copilot-basics"].
Proof. reflexivity. Qed.

Example link_sample :
  re_search_link "- see [[Copilot Basics](https://x/copilot) and [b](c)"
  = Some ("[Copilot Basics", "https://x/copilot").
Proof. reflexivity. Qed.

Example link_empty_group_sample : re_search_link "- [](b) then [c]()" = None.
Proof. reflexivity. Qed.

Example toc_category_sample :
  _parse_toc
    (doc ["# Title"; "Dashboards"; "* [Overview](https://x/o)"; "1. no link here";
          "https://x/raw"; "2. [Widgets]( https://x/w )"])
    None
  = [ mkSectionRecord "Overview" "Dashboards" "https://x/o" "Dashboards: Overview";
      mkSectionRecord "Widgets" "Dashboards" "https://x/w" "Dashboards: Widgets" ].
Proof. vm_compute. reflexivity. Qed.

Example toc_query_sample :
  _parse_toc
    (doc ["Dashboards"; "- [Overview](https://x/o)"; "Copilot"; "- [Basics](https://x/b)"])
    (Some "DASH")
  = [ mkSectionRecord "Overview" "Dashboards" "https://x/o" "Dashboards: Overview" ].
Proof. vm_compute. reflexivity. Qed.


(** ** Strings: append, prefixes and occurrences *)

Section StringFacts.
Implicit Types (s p a b : string) (c : ascii).

Lemma sapp_cons c a b : String c a +:+ b = String c (a +:+ b).
Proof. reflexivity. Qed.

Lemma sapp_nil_r s : s +:+ "" = s.
Proof. induction s as [|c s IH]; [done|]. by rewrite sapp_cons, IH. Qed.

Lemma sapp_assoc a b s : (a +:+ b) +:+ s = a +:+ (b +:+ s).
Proof. induction a as [|c a IH]; [done|]. by rewrite !sapp_cons, IH. Qed.

Lemma startswith_spec p s : Py.startswith p s = true ↔ ∃ b, s = p +:+ b.
Proof.
  revert s. induction p as [|c p IH]; intros s; simpl.
  - split; [intros _; by exists s | done].
  - destruct s as [|d s].
    + split; [done | intros [b Hb]; discriminate Hb].
    + destruct (Ascii.eqb_spec c d) as [->|Hne].
      * rewrite IH. split; intros [b Hb]; exists b.
        -- by rewrite Hb.
        -- rewrite sapp_cons in Hb. by injection Hb.
      * split; [done | intros [b Hb]]. rewrite sapp_cons in Hb.
        injection Hb as Hc _. by destruct Hne.
Qed.

Lemma occurs_in_refl s : occurs_in s s.
Proof. exists "", "". by rewrite sapp_nil_r. Qed.

Lemma occurs_in_trans p s t : occurs_in p s → occurs_in s t → occurs_in p t.
Proof.
  intros (a & b & ->) (a' & b' & ->).
  exists (a' +:+ a), (b +:+ b'). by rewrite !sapp_assoc.
Qed.

Lemma occurs_in_app_l p a s : occurs_in p s → occurs_in p (a +:+ s).
Proof. intros (x & y & ->). exists (a +:+ x), y. by rewrite !sapp_assoc. Qed.

Lemma occurs_in_app_r p s b : occurs_in p s → occurs_in p (s +:+ b).
Proof. intros (x & y & ->). exists x, (y +:+ b). by rewrite !sapp_assoc. Qed.

Lemma occurs_in_cons p c s : occurs_in p s → occurs_in p (String c s).
Proof. apply (occurs_in_app_l p (String c "")). Qed.

Lemma contains_spec p s : Py.contains p s = true ↔ occurs_in p s.
Proof.
  induction s as [|c s IH]; simpl.
  - rewrite orb_false_r, startswith_spec. split.
    + intros [b Hb]. by exists "", b.
    + intros (a & b & Hab). destruct a; [by exists b | discriminate Hab].
  - rewrite orb_true_iff, IH, startswith_spec. split.
    + intros [[b Hb] | Hin]; [by exists "", b | by apply occurs_in_cons].
    + intros (a & b & Hab). destruct a as [|d a].
      * left. by exists b.
      * right. rewrite sapp_cons in Hab. injection Hab as _ ->. by exists a, b.
Qed.

(** A line that starts with two hashes does not start with "# ": its
    second character is a hash, not a space. *)
Lemma two_hashes_not_one s :
  Py.startswith "## " s = true → Py.startswith "# " s = false.
Proof. by intros [b ->]%startswith_spec. Qed.

Lemma contains_empty s : Py.contains "" s = true.
Proof. by destruct s. Qed.

Lemma eqb_true s t : Py.eqb s t = true ↔ s = t.
Proof. unfold Py.eqb. apply bool_decide_eq_true. Qed.

Lemma truthy_spec s : Py.truthy s = true ↔ s ≠ "".
Proof. by destruct s. Qed.
End StringFacts.

(** ** Strings: lowercasing and stripping *)

Section CaseAndSpace.
Implicit Types (s p a b : string) (c : ascii).

Lemma lower_char_idemp c : Py.lower_char (Py.lower_char c) = Py.lower_char c.
Proof. by destruct c as [[] [] [] [] [] [] [] []]. Qed.

Lemma lower_app a b : Py.lower (a +:+ b) = Py.lower a +:+ Py.lower b.
Proof. induction a as [|c a IH]; [done|]. simpl. by rewrite !sapp_cons, IH. Qed.

Lemma lower_idemp s : Py.lower (Py.lower s) = Py.lower s.
Proof.
  induction s as [|c s IH]; [done|]. simpl. by rewrite lower_char_idemp, IH.
Qed.

Lemma lower_occurs p s : occurs_in p s → occurs_in (Py.lower p) (Py.lower s).
Proof.
  intros (a & b & ->). exists (Py.lower a), (Py.lower b).
  by rewrite !lower_app.
Qed.

(** A run of characters of a lowercased string is itself in lower case. *)
Lemma occurs_in_lower_fixed p s : occurs_in p (Py.lower s) → Py.lower p = p.
Proof.
  intros (a & b & Hs).
  assert (Hl : Py.lower (a +:+ p +:+ b) = a +:+ p +:+ b)
    by (rewrite <- Hs; apply lower_idemp).
  rewrite !lower_app in Hl. clear Hs. revert Hl.
  induction a as [|c a IH]; intros Hl.
  - change ("" +:+ ?x) with x in Hl. clear -Hl. revert b Hl.
    induction p as [|c p IH]; intros b Hl; [done|].
    simpl in Hl. rewrite !sapp_cons in Hl. injection Hl as Hc Hl.
    simpl. rewrite Hc. f_equal. by apply (IH b).
  - simpl in Hl. rewrite !sapp_cons in Hl. injection Hl as _ Hl. by apply IH.
Qed.

Lemma lstrip_suffix s : ∃ a, s = a +:+ Py.lstrip s.
Proof.
  induction s as [|c s [a Ha]]; [by exists ""|]. simpl.
  destruct (Py.isspace c); [|by exists ""].
  exists (String c a). by rewrite sapp_cons, <- Ha.
Qed.

Lemma rstrip_prefix s : ∃ b, s = Py.rstrip s +:+ b.
Proof.
  induction s as [|c s [b Hb]]; [by exists ""|]. simpl.
  destruct (Py.rstrip s) as [|d r] eqn:Hr.
  - destruct (Py.isspace c).
    + by exists (String c s).
    + exists s. done.
  - exists b. by rewrite sapp_cons, <- Hb.
Qed.

Lemma strip_occurs s : occurs_in (Py.strip s) s.
Proof.
  unfold Py.strip. destruct (rstrip_prefix s) as [b Hb].
  destruct (lstrip_suffix (Py.rstrip s)) as [a Ha].
  exists a, b. by rewrite <- sapp_assoc, <- Ha.
Qed.
End CaseAndSpace.

(** ** Strings: lines *)

Section Lines.
Implicit Types (s l : string) (ls : list string) (c sep : ascii).

Lemma split_nonempty sep s : Py.split sep s ≠ [].
Proof.
  destruct s as [|c s]; simpl; [done|].
  destruct (Ascii.eqb c sep); [done|]. by destruct (Py.split sep s).
Qed.

Lemma join_cons (d : string) l ls :
  ls ≠ [] → Py.join d (l :: ls) = l +:+ d +:+ Py.join d ls.
Proof. by destruct ls. Qed.

Lemma join_split s : Py.join NL (Py.split LF s) = s.
Proof.
  induction s as [|c s IH]; [done|]. simpl.
  destruct (Ascii.eqb_spec c LF) as [->|Hne].
  - rewrite join_cons by apply split_nonempty. by rewrite IH.
  - pose proof (split_nonempty LF s) as Hs.
    destruct (Py.split LF s) as [|l ls]; [done|].
    rewrite <- IH. by destruct ls.
Qed.

Lemma split_no_sep sep s :
  Forall (λ l, has_char sep l = false) (Py.split sep s).
Proof.
  induction s as [|c s IH]; simpl; [by repeat constructor|].
  destruct (Ascii.eqb c sep) eqn:Hc; [by constructor|].
  destruct (Py.split sep s) as [|l ls]; [by repeat constructor; simpl; rewrite Hc|].
  inversion_clear IH as [|? ? Hl Hls]. constructor; [|done].
  simpl. by rewrite Hc.
Qed.

Lemma split_free sep l : has_char sep l = false → Py.split sep l = [l].
Proof.
  induction l as [|c l IH]; simpl; [done|].
  intros [Hc Hl]%orb_false_iff. by rewrite Hc, IH.
Qed.

Lemma split_app_sep sep l s :
  has_char sep l = false →
  Py.split sep (l +:+ String sep s) = l :: Py.split sep s.
Proof.
  induction l as [|c l IH]; intros Hfree.
  - change ("" +:+ ?x) with x. simpl. by rewrite Ascii.eqb_refl.
  - simpl in Hfree. apply orb_false_iff in Hfree as [Hc Hl].
    rewrite sapp_cons. simpl. by rewrite Hc, IH.
Qed.

Lemma split_join ls :
  ls ≠ [] → Forall (λ l, has_char LF l = false) ls →
  Py.split LF (Py.join NL ls) = ls.
Proof.
  induction ls as [|l ls IH]; [done|]. intros _ Hall.
  inversion_clear Hall as [|? ? Hl Hls].
  destruct ls as [|l' ls]; [by apply split_free|].
  rewrite join_cons by done. unfold NL at 1. rewrite sapp_cons.
  change ("" +:+ ?x) with x.
  rewrite split_app_sep by done. by rewrite IH.
Qed.

Lemma join_elem_occurs (d : string) l ls : l ∈ ls → occurs_in l (Py.join d ls).
Proof.
  induction ls as [|x ls IH]; [by intros ?%elem_of_nil|].
  intros [->|Hin]%elem_of_cons.
  - destruct ls; [apply occurs_in_refl|].
    rewrite join_cons by done. apply occurs_in_app_r, occurs_in_refl.
  - destruct ls as [|y ls]; [by apply elem_of_nil in Hin|].
    rewrite join_cons by done. by apply occurs_in_app_l, occurs_in_app_l, IH.
Qed.

Lemma split_line_occurs l s : l ∈ Py.split LF s → occurs_in l s.
Proof. intros Hin. rewrite <- (join_split s). by apply join_elem_occurs. Qed.
End Lines.

(** ** The accumulation loop *)

Section Accumulate.
Implicit Types (line x : string) (content_lines rest pre post : list string).

(** The loop returns the lines it was given, then a run of the lines that
    follow, then the marker exactly when the 101st line has been taken. *)
Lemma accumulate_shape line content_lines rest :
  length content_lines ≤ 100 →
  ∃ n b,
    accumulate line content_lines rest
      = content_lines ++ take n rest ++ marker_if b
    ∧ n ≤ length rest
    ∧ length content_lines + n ≤ 101
    ∧ (b = true ↔ length content_lines + n = 101).
Proof.
  revert content_lines.
  induction rest as [|x rest IH]; intros content_lines Hlen; simpl.
  - exists 0, false. rewrite app_nil_r. repeat split; try lia; done.
  - destruct (is_boundary line (Py.strip x)).
    { exists 0, false. simpl. rewrite app_nil_r.
      repeat split; try lia; done. }
    destruct (100 <? length (content_lines ++ [x])) eqn:Hcap.
    + apply Nat.ltb_lt in Hcap. rewrite length_app in Hcap. simpl in Hcap.
      exists 1, true. simpl. rewrite ?take_0. simpl.
      rewrite <- app_assoc. simpl. repeat split; try lia; done.
    + apply Nat.ltb_ge in Hcap. rewrite length_app in Hcap. simpl in Hcap.
      destruct (IH (content_lines ++ [x])) as (n & b & Heq & Hn & Hle & Hb).
      { rewrite length_app. simpl. lia. }
      rewrite length_app in Hle, Hb. simpl in Hle, Hb.
      exists (S n), b. rewrite Heq. simpl. rewrite <- app_assoc. simpl.
      repeat split; try lia.
      * intros ->. apply proj1 in Hb. specialize (Hb eq_refl). lia.
      * intros ?. apply Hb. lia.
Qed.

(** The loop leaves at the first boundary line it reaches, without it. *)
Lemma accumulate_stops_at line content_lines pre x post :
  Forall (λ y, is_boundary line (Py.strip y) = false) pre →
  length content_lines + length pre ≤ 100 →
  is_boundary line (Py.strip x) = true →
  accumulate line content_lines (pre ++ x :: post) = content_lines ++ pre.
Proof.
  revert content_lines.
  induction pre as [|y pre IH]; intros content_lines Hpre Hlen Hx; simpl.
  - by rewrite Hx, app_nil_r.
  - inversion_clear Hpre as [|? ? Hy Hpre']. rewrite Hy.
    simpl in Hlen.
    assert (Hcap : (100 <? length (content_lines ++ [y])) = false).
    { apply Nat.ltb_ge. rewrite length_app. simpl. lia. }
    rewrite Hcap, IH; try done.
    + by rewrite <- app_assoc.
    + rewrite length_app. simpl. lia.
Qed.

(** A line that is no boundary is taken when the loop reaches it. *)
Lemma accumulate_passes line content_lines pre x post :
  Forall (λ y, is_boundary line (Py.strip y) = false) pre →
  length content_lines + length pre ≤ 100 →
  is_boundary line (Py.strip x) = false →
  (content_lines ++ pre ++ [x])
    `prefix_of` accumulate line content_lines (pre ++ x :: post).
Proof.
  revert content_lines.
  induction pre as [|y pre IH]; intros content_lines Hpre Hlen Hx; simpl.
  - rewrite Hx. destruct (100 <? length (content_lines ++ [x])) eqn:Hcap.
    + by apply prefix_app_r.
    + apply Nat.ltb_ge in Hcap.
      destruct (accumulate_shape line (content_lines ++ [x]) post)
        as (n & b & -> & _); [done|].
      by apply prefix_app_r.
  - inversion_clear Hpre as [|? ? Hy Hpre']. rewrite Hy.
    simpl in Hlen.
    assert (Hcap : (100 <? length (content_lines ++ [y])) = false).
    { apply Nat.ltb_ge. rewrite length_app. simpl. lia. }
    rewrite Hcap.
    replace (content_lines ++ y :: pre ++ [x])
      with ((content_lines ++ [y]) ++ pre ++ [x])
      by (by rewrite <- app_assoc).
    apply IH; try done. rewrite length_app. simpl. lia.
Qed.
End Accumulate.

(** ** The two search loops *)

Section Search.
Implicit Types (pattern line s : string) (lines patterns : list string).

Lemma scan_lines_None pattern lines :
  scan_lines pattern lines = None
  ↔ Forall (λ l, line_matches pattern l = false) lines.
Proof.
  induction lines as [|line rest IH]; simpl.
  - split; [constructor | done].
  - destruct (line_matches pattern line) eqn:Hm.
    + split; [done|]. intros Hall. inversion Hall; congruence.
    + rewrite IH. split; [by constructor|]. by inversion 1.
Qed.

Lemma scan_lines_Some pattern lines :
  is_Some (scan_lines pattern lines)
  ↔ Exists (λ l, line_matches pattern l = true) lines.
Proof.
  induction lines as [|line rest IH]; simpl.
  - split; [by intros [? ?] | by inversion 1].
  - destruct (line_matches pattern line) eqn:Hm.
    + split; [by left | by eexists].
    + rewrite IH. split; [by right|]. inversion 1; [congruence | done].
Qed.

(** The text found for one pattern starts at the first matching line and
    runs over consecutive lines. *)
Lemma scan_lines_shape pattern lines s :
  scan_lines pattern lines = Some s →
  ∃ i line n b,
    lines !! i = Some line
    ∧ line_matches pattern line = true
    ∧ Forall (λ l, line_matches pattern l = false) (take i lines)
    ∧ 1 ≤ n ∧ n ≤ 101 ∧ i + n ≤ length lines
    ∧ (b = true ↔ n = 101)
    ∧ s = Py.join NL (take n (drop i lines) ++ marker_if b).
Proof.
  induction lines as [|line rest IH]; simpl; [done|].
  destruct (line_matches pattern line) eqn:Hm.
  - intros [= <-].
    destruct (accumulate_shape line [line] rest) as (n & b & -> & Hn & Hle & Hb).
    { simpl. lia. }
    simpl in Hle, Hb.
    exists 0, line, (S n), b. simpl. repeat split; try done; try lia.
    + intros ->. apply proj1 in Hb. specialize (Hb eq_refl). lia.
    + intros ?. apply Hb. lia.
  - intros Hs. destruct (IH Hs) as (i & l & n & b & Hi & Hl & Hpre & ? & ? & ? & ? & ->).
    exists (S i), l, n, b. simpl.
    repeat split; try done; try lia; try tauto. by constructor.
Qed.

(** The text found is the one of the first pattern that matches a line. *)
Lemma try_patterns_shape patterns lines s :
  try_patterns patterns lines = Some s →
  ∃ k pattern,
    patterns !! k = Some pattern
    ∧ scan_lines pattern lines = Some s
    ∧ Forall (λ q, scan_lines q lines = None) (take k patterns).
Proof.
  induction patterns as [|p patterns IH]; simpl; [done|].
  destruct (scan_lines p lines) as [s'|] eqn:Hp.
  - intros [= ->]. exists 0, p. by repeat split.
  - intros Hs. destruct (IH Hs) as (k & q & Hk & Hq & Hpre).
    exists (S k), q. repeat split; try done. simpl. by constructor.
Qed.

Lemma try_patterns_None patterns lines :
  try_patterns patterns lines = None
  ↔ Forall (λ q, scan_lines q lines = None) patterns.
Proof.
  induction patterns as [|p patterns IH]; simpl.
  - split; [constructor | done].
  - destruct (scan_lines p lines) as [s'|] eqn:Hp.
    + split; [done|]. inversion 1; congruence.
    + rewrite IH. split; [by constructor | by inversion 1].
Qed.

(** The second test of [line_matches] never adds a match: a line that
    equals the pattern once stripped contains it. *)
Lemma line_matches_contains pattern line :
  line_matches pattern line = Py.contains pattern (Py.lower line).
Proof.
  unfold line_matches.
  destruct (Py.contains pattern (Py.lower line)) eqn:Hc; [done|]. simpl.
  apply bool_decide_eq_false. intros <-.
  pose proof (strip_occurs (Py.lower line)) as Hocc.
  apply contains_spec in Hocc. congruence.
Qed.

(** The whole search, as [_find_section_content] returns it. *)
Lemma find_section_shape full_docs title s :
  _find_section_content full_docs title = Some s →
  ∃ k pattern i line n b,
    patterns_to_try title !! k = Some pattern
    ∧ Forall (λ q, scan_lines q (Py.split LF full_docs) = None)
             (take k (patterns_to_try title))
    ∧ Py.split LF full_docs !! i = Some line
    ∧ line_matches pattern line = true
    ∧ Forall (λ l, line_matches pattern l = false)
             (take i (Py.split LF full_docs))
    ∧ 1 ≤ n ∧ n ≤ 101 ∧ i + n ≤ length (Py.split LF full_docs)
    ∧ (b = true ↔ n = 101)
    ∧ s = Py.join NL (take n (drop i (Py.split LF full_docs)) ++ marker_if b).
Proof.
  unfold _find_section_content. intros Hs.
  destruct (try_patterns_shape _ _ _ Hs) as (k & p & Hk & Hscan & Hpre).
  destruct (scan_lines_shape _ _ _ Hscan)
    as (i & line & n & b & Hi & Hm & Hfirst & ? & ? & ? & ? & ->).
  exists k, p, i, line, n, b. repeat split; try done; tauto.
Qed.
End Search.

(** ** Lines of the extracted text *)

Section FoundText.
Implicit Types (full_docs title s : string).

Lemma marker_free : has_char LF TRUNCATION_MARKER = false.
Proof. reflexivity. Qed.

(** The lines of the returned string are the accumulated lines. *)
Lemma find_section_lines full_docs title s :
  _find_section_content full_docs title = Some s →
  ∃ i n b,
    1 ≤ n ∧ n ≤ 101 ∧ i + n ≤ length (Py.split LF full_docs)
    ∧ (b = true ↔ n = 101)
    ∧ Py.split LF s = take n (drop i (Py.split LF full_docs)) ++ marker_if b.
Proof.
  intros Hs.
  destruct (find_section_shape _ _ _ Hs)
    as (k & p & i & line & n & b & _ & _ & Hi & _ & _ & Hn1 & Hn & Hin & Hb & ->).
  exists i, n, b. repeat split; try done; try tauto.
  apply split_join.
  - intros Hnil. apply (f_equal length) in Hnil.
    rewrite length_app, length_take, length_drop in Hnil. simpl in Hnil. lia.
  - apply Forall_app. split.
    + apply Forall_take, Forall_drop, split_no_sep.
    + destruct b; simpl; [|constructor]. constructor; [apply marker_free | constructor].
Qed.
End FoundText.

(** C10: a string returned by [_find_section_content] is the newline-join of
    a run of consecutive, unmodified lines of the document that starts at a
    line matching one of the patterns, optionally followed by the single
    truncation-marker line. *)
Theorem C10_content_is_verbatim_run (full_docs title s : string) :
  _find_section_content full_docs title = Some s →
  ∃ i n b pattern line,
    pattern ∈ patterns_to_try title
    ∧ Py.split LF full_docs !! i = Some line
    ∧ line_matches pattern line = true
    ∧ 1 ≤ n ∧ i + n ≤ length (Py.split LF full_docs)
    ∧ s = Py.join NL (take n (drop i (Py.split LF full_docs)) ++ marker_if b).
Proof.
  intros Hs.
  destruct (find_section_shape _ _ _ Hs)
    as (k & p & i & line & n & b & Hk & _ & Hi & Hm & _ & Hn1 & _ & Hin & _ & ->).
  exists i, n, b, p, line.
  split; [by eapply list_elem_of_lookup_2|]. by repeat split.
Qed.

Lemma C10_content_is_verbatim_run_witness :
  ∃ i n b pattern line,
    pattern ∈ patterns_to_try "setup"
    ∧ Py.split LF (doc ["# Intro"; "## Setup"; "run it"; "# End"]) !! i = Some line
    ∧ line_matches pattern line = true
    ∧ 1 ≤ n
    ∧ i + n ≤ length (Py.split LF (doc ["# Intro"; "## Setup"; "run it"; "# End"]))
    ∧ doc ["## Setup"; "run it"]
      = Py.join NL
          (take n (drop i (Py.split LF (doc ["# Intro"; "## Setup"; "run it"; "# End"])))
           ++ marker_if b).
Proof.
  apply (C10_content_is_verbatim_run
           (doc ["# Intro"; "## Setup"; "run it"; "# End"]) "setup").
  vm_compute. reflexivity.
Defined.

(** C3 (amended): the string returned by [_find_section_content] never
    exceeds 102 lines: at most 101 lines of the document, followed by the
    truncation marker as last line exactly when 101 lines were
    accumulated. *)
Theorem C3_at_most_102_lines (full_docs title s : string) :
  _find_section_content full_docs title = Some s →
  ∃ content b,
    Py.split LF s = content ++ marker_if b
    ∧ content `sublist_of` Py.split LF full_docs
    ∧ length content ≤ 101
    ∧ (b = true ↔ length content = 101)
    ∧ length (Py.split LF s) ≤ 102.
Proof.
  intros Hs.
  destruct (find_section_lines _ _ _ Hs) as (i & n & b & Hn1 & Hn & Hin & Hb & Hl).
  exists (take n (drop i (Py.split LF full_docs))), b.
  assert (Hlen : length (take n (drop i (Py.split LF full_docs))) = n).
  { rewrite length_take, length_drop. lia. }
  rewrite Hl, length_app, Hlen.
  split; [done|]. split; [etrans; [apply sublist_take | apply sublist_drop]|].
  split; [done|]. split; [done|]. destruct b; simpl; lia.
Qed.

Lemma C3_at_most_102_lines_witness :
  ∃ content b,
    Py.split LF (doc ["## Setup"; "run it"]) = content ++ marker_if b
    ∧ content `sublist_of` Py.split LF (doc ["# Intro"; "## Setup"; "run it"; "# End"])
    ∧ length content ≤ 101
    ∧ (b = true ↔ length content = 101)
    ∧ length (Py.split LF (doc ["## Setup"; "run it"])) ≤ 102.
Proof.
  apply (C3_at_most_102_lines
           (doc ["# Intro"; "## Setup"; "run it"; "# End"]) "setup").
  vm_compute. reflexivity.
Defined.

(** C3, as stated, fails: on a section of 150 lines the code returns 101
    document lines and the marker, 102 lines in all. *)
Lemma C3_counterexample :
  _find_section_content (doc (replicate 150 "a")) "a"
    = Some (doc (replicate 101 "a" ++ [TRUNCATION_MARKER]))
  ∧ ¬ length (Py.split LF (doc (replicate 101 "a" ++ [TRUNCATION_MARKER]))) ≤ 101.
Proof.
  split; [vm_compute; reflexivity|].
  assert (Hn : length (Py.split LF (doc (replicate 101 "a" ++ [TRUNCATION_MARKER])))
               = 102) by (vm_compute; reflexivity).
  rewrite Hn. lia.
Qed.

(** C4 (amended): when the loop reaches a line, accumulation ends there,
    that line excluded, whenever the stripped line starts with "# ", or
    starts with "## " and differs from the stripped matched line; a "## "
    line equal to the stripped matched line is accumulated. *)
Theorem C4_boundary_line (line : string) (content_lines pre : list string)
    (x : string) (post : list string) :
  Forall (λ y, is_boundary line (Py.strip y) = false) pre →
  length content_lines + length pre ≤ 100 →
  (Py.startswith "# " (Py.strip x) = true
   ∨ Py.startswith "## " (Py.strip x) = true ∧ Py.strip x ≠ Py.strip line →
   accumulate line content_lines (pre ++ x :: post) = content_lines ++ pre)
  ∧ (Py.startswith "## " (Py.strip x) = true ∧ Py.strip x = Py.strip line →
     (content_lines ++ pre ++ [x])
       `prefix_of` accumulate line content_lines (pre ++ x :: post)).
Proof.
  intros Hpre Hlen. split.
  - intros Hx. apply accumulate_stops_at; try done.
    unfold is_boundary. destruct Hx as [-> | [-> Hne]]; [done|].
    rewrite orb_true_iff. right. simpl.
    apply negb_true_iff, bool_decide_eq_false. done.
  - intros [Hx Heq]. apply accumulate_passes; try done.
    unfold is_boundary. rewrite Heq in *.
    rewrite (two_hashes_not_one _ Hx), Hx. simpl. apply negb_false_iff, bool_decide_eq_true. done.
Qed.

Lemma C4_boundary_line_witness :
  (Py.startswith "# " (Py.strip "## Next") = true
   ∨ Py.startswith "## " (Py.strip "## Next") = true
     ∧ Py.strip "## Next" ≠ Py.strip "## Setup" →
   accumulate "## Setup" ["## Setup"] (["run it"] ++ "## Next" :: ["more"])
   = ["## Setup"] ++ ["run it"])
  ∧ (Py.startswith "## " (Py.strip "## Next") = true
     ∧ Py.strip "## Next" = Py.strip "## Setup" →
     (["## Setup"] ++ ["run it"] ++ ["## Next"])
       `prefix_of` accumulate "## Setup" ["## Setup"]
                     (["run it"] ++ "## Next" :: ["more"])).
Proof.
  apply (C4_boundary_line "## Setup" ["## Setup"] ["run it"] "## Next" ["more"]).
  - repeat constructor.
  - simpl. lia.
Defined.

(** C4, as stated, fails: a "## " line equal to the matched header line does
    not end the accumulation. *)
Lemma C4_counterexample :
  Py.startswith "## " (Py.strip "## a") = true
  ∧ accumulate "## a" ["## a"] ["## a"; "b"] = ["## a"; "## a"; "b"]
  ∧ _find_section_content (doc ["## a"; "## a"; "b"]) "a"
    = Some (doc ["## a"; "## a"; "b"]).
Proof. repeat split; vm_compute; reflexivity. Qed.

(** ** The extraction mapping *)

Section Mapping.
Implicit Types (full_docs title t : string) (titles : list string)
  (m : gmap string string).

Lemma extract_one_insert full_docs m title :
  extract_one full_docs m title = <[title := section_entry full_docs title]> m.
Proof.
  unfold extract_one, section_entry.
  destruct (_find_section_content full_docs title) as [s|]; [|done].
  by destruct (Py.truthy s).
Qed.

Lemma extract_fold_lookup full_docs titles m t :
  foldl (extract_one full_docs) m titles !! t
  = if decide (t ∈ titles) then Some (section_entry full_docs t) else m !! t.
Proof.
  revert m. induction titles as [|x titles IH]; intros m.
  - simpl. destruct (decide (t ∈ [])) as [Hin|]; [|done].
    by apply elem_of_nil in Hin.
  - change (foldl (extract_one full_docs) m (x :: titles))
      with (foldl (extract_one full_docs) (extract_one full_docs m x) titles).
    rewrite IH, extract_one_insert.
    destruct (decide (t ∈ titles)) as [Hin|Hnin];
      destruct (decide (t ∈ x :: titles)) as [Hin'|Hnin']; try done.
    + destruct Hnin'. by right.
    + apply elem_of_cons in Hin' as [->|?]; [|done].
      by rewrite lookup_insert_eq.
    + rewrite lookup_insert_ne; [done|]. intros ->. apply Hnin'. by left.
Qed.

Lemma extract_lookup full_docs titles t :
  _extract_sections_from_docs full_docs titles !! t
  = if decide (t ∈ titles) then Some (section_entry full_docs t) else None.
Proof.
  unfold _extract_sections_from_docs.
  rewrite extract_fold_lookup. by rewrite lookup_empty.
Qed.

Lemma extract_dom full_docs titles :
  dom (_extract_sections_from_docs full_docs titles) = list_to_set titles.
Proof.
  apply set_eq. intros t.
  rewrite elem_of_dom, extract_lookup, elem_of_list_to_set.
  destruct (decide (t ∈ titles)); split; done.
Qed.

Lemma remove_dups_length_le (l : list string) :
  length (remove_dups l) ≤ length l.
Proof.
  induction l as [|x l IH]; simpl; [done|].
  destruct (decide_rel elem_of x l); simpl; lia.
Qed.

Lemma remove_dups_length_eq (l : list string) :
  length (remove_dups l) = length l ↔ NoDup l.
Proof.
  induction l as [|x l IH]; simpl.
  - split; [constructor | done].
  - pose proof (remove_dups_length_le l).
    destruct (decide_rel elem_of x l) as [Hin|Hnin]; simpl.
    + split; [lia|]. by inversion 1.
    + rewrite NoDup_cons, <- IH. split; [intros; split; [done|lia] | intros [_ ?]; lia].
Qed.

Lemma extract_size full_docs titles :
  size (_extract_sections_from_docs full_docs titles)
  = length (remove_dups titles).
Proof.
  rewrite <- size_dom, extract_dom.
  assert (Heq : list_to_set (C := gset string) titles
                = list_to_set (remove_dups titles)).
  { apply set_eq. intros t.
    by rewrite !elem_of_list_to_set, elem_of_remove_dups. }
  rewrite Heq. apply size_list_to_set, NoDup_remove_dups.
Qed.

(** With the empty title the fourth pattern is the empty string, which
    occurs in every line: the search never comes back empty-handed. *)
Lemma find_empty_title full_docs :
  is_Some (_find_section_content full_docs "").
Proof.
  unfold _find_section_content.
  destruct (try_patterns _ _) as [s|] eqn:Htry; [by eexists|].
  apply try_patterns_None in Htry.
  assert (Hin : "" ∈ patterns_to_try "") by (vm_compute; set_solver).
  rewrite Forall_forall in Htry. specialize (Htry _ Hin).
  apply scan_lines_None in Htry.
  pose proof (split_nonempty LF full_docs) as Hne.
  destruct (Py.split LF full_docs) as [|l ls]; [done|].
  inversion_clear Htry as [|? ? Hl _].
  unfold line_matches in Hl. by rewrite contains_empty in Hl.
Qed.
End Mapping.

(** C1 (amended): the mapping returned by [_extract_sections_from_docs]
    has exactly one entry per distinct requested title: its keys are the
    requested titles, the empty string included when requested, and its
    number of entries is the number of distinct titles, which is the length
    of the list exactly when no title is repeated. *)
Theorem C1_one_entry_per_distinct_title (full_docs : string)
    (section_titles : list string) :
  dom (_extract_sections_from_docs full_docs section_titles)
    = list_to_set section_titles
  ∧ size (_extract_sections_from_docs full_docs section_titles)
    = length (remove_dups section_titles)
  ∧ (size (_extract_sections_from_docs full_docs section_titles)
     = length section_titles ↔ NoDup section_titles).
Proof.
  split; [apply extract_dom|]. split; [apply extract_size|].
  rewrite extract_size. apply remove_dups_length_eq.
Qed.

(** C1, as stated, fails: a title requested twice has one entry. *)
Lemma C1_counterexample :
  size (_extract_sections_from_docs "hello" ["a"; "a"]) = 1
  ∧ size (_extract_sections_from_docs "hello" ["a"; "a"]) ≠ length ["a"; "a"].
Proof. split; [vm_compute; reflexivity | vm_compute; lia]. Qed.

(** C6 (amended): when the empty string is among the requested titles, the
    mapping has an entry for it and nothing is raised; the search for the
    empty title always finds a text, and the entry is that text, or the
    not-found placeholder when the text is the empty string. *)
Theorem C6_empty_title_entry (full_docs : string) (section_titles : list string) :
  "" ∈ section_titles →
  ∃ s, _find_section_content full_docs "" = Some s
       ∧ _extract_sections_from_docs full_docs section_titles !! ""
         = Some (if Py.truthy s then s else not_found "").
Proof.
  intros Hin. destruct (find_empty_title full_docs) as [s Hs].
  exists s. split; [done|].
  rewrite extract_lookup, decide_True by done.
  unfold section_entry. by rewrite Hs.
Qed.

Lemma C6_empty_title_entry_witness :
  ∃ s, _find_section_content (doc ["# Intro"; "text"]) "" = Some s
       ∧ _extract_sections_from_docs (doc ["# Intro"; "text"]) ["Intro"; ""] !! ""
         = Some (if Py.truthy s then s else not_found "").
Proof.
  apply (C6_empty_title_entry (doc ["# Intro"; "text"]) ["Intro"; ""]).
  set_solver.
Defined.

(** C6, as stated, fails: for the empty title the entry is text of the
    document, not the placeholder. *)
Lemma C6_counterexample :
  _extract_sections_from_docs "hello" [""] !! "" = Some "hello"
  ∧ "hello" ≠ not_found "".
Proof. split; [vm_compute; reflexivity | done]. Qed.

(** ** The query filter of the TOC parser *)

Section QueryFilter.
Implicit Types (q line : string) (st : toc_state) (lines : list string).

Lemma parse_line_filter q st1 st2 line :
  filter_inv q st1 st2 →
  filter_inv q (parse_line (Some q) st1 line) (parse_line None st2 line).
Proof.
  intros (Hcat & Hsub & Hall). unfold parse_line.
  destruct (negb (Py.truthy (Py.strip line))); [done|].
  destruct (negb (Py.startswith_any BULLET_MARKERS (Py.strip line))).
  { destruct (_ && _); [|done]. by repeat split. }
  destruct (re_search_link (Py.strip line)) as [[g1 g2]|]; [|done].
  rewrite <- Hcat. simpl.
  destruct (Py.truthy q && _ && _) eqn:Hrej.
  - repeat split; try done. simpl. by apply sublist_inserts_r.
  - repeat split; simpl; try done.
    + by apply sublist_app.
    + apply Forall_app. split; [done|]. constructor; [|constructor].
      unfold query_hits. simpl.
      destruct (Py.truthy q) eqn:Hq.
      * simpl in Hrej. apply andb_false_iff in Hrej as [H|H];
          apply negb_false_iff in H; [by left | by right].
      * left. destruct q; [|done]. apply contains_empty.
Qed.

Lemma parse_fold_filter q lines st1 st2 :
  filter_inv q st1 st2 →
  filter_inv q (foldl (parse_line (Some q)) st1 lines)
               (foldl (parse_line None) st2 lines).
Proof.
  revert st1 st2. induction lines as [|line lines IH]; intros st1 st2 Hinv.
  - done.
  - simpl. by apply IH, parse_line_filter.
Qed.
End QueryFilter.

(** C8: the output of [_parse_toc] with a query is an order-preserving
    subsequence of its output without a query, and every retained record has
    the query as a case-insensitive substring of its title or of its
    category.  This holds for every query string, the non-empty ones in
    particular. *)
Theorem C8_query_filter_subsequence (toc_content q : string) :
  _parse_toc toc_content (Some q) `sublist_of` _parse_toc toc_content None
  ∧ Forall (query_hits q) (_parse_toc toc_content (Some q)).
Proof.
  unfold _parse_toc.
  destruct (parse_fold_filter q (Py.split LF (Py.strip toc_content))
              (mkTocState [] "") (mkTocState [] "")) as (_ & Hsub & Hall).
  - repeat split; [done | constructor].
  - done.
Qed.

(** ** The tool bodies *)

(** C9: in both tool bodies, when the document fetch raises, the body
    returns the failure dict: [success] false, the message of the exception
    as [error], and empty content (the empty raw TOC string, the empty
    extracted-content mapping) instead of letting the exception through. *)
Theorem C9_fetch_failure_is_data
    (http_get_text : string → outcome string) (IDENTIFY_INSTRUCTION : string)
    (format_instruction : string → outcome string)
    (section_titles : list string) (user_query e : string) :
  (http_get_text TOC_URL = Raise e →
   _identify_sections_async http_get_text IDENTIFY_INSTRUCTION user_query
   = {| IdentifyResult.success := false;
        IdentifyResult.error := Some e;
        IdentifyResult.query := user_query;
        IdentifyResult.raw_toc_content := "";
        IdentifyResult.instruction := None |})
  ∧ (http_get_text FULL_DOCS_URL = Raise e →
     _fetch_content_async http_get_text format_instruction section_titles user_query
     = {| FetchResult.success := false;
          FetchResult.error := Some e;
          FetchResult.user_query := user_query;
          FetchResult.extracted_content := ∅;
          FetchResult.sections_found := None;
          FetchResult.instruction := None |}).
Proof.
  unfold _identify_sections_async, _fetch_content_async.
  split; intros ->; reflexivity.
Qed.

Lemma C9_fetch_failure_is_data_witness :
  _identify_sections_async (λ _, Raise "timed out") "pick sections" "How do I log in?"
  = {| IdentifyResult.success := false;
       IdentifyResult.error := Some "timed out";
       IdentifyResult.query := "How do I log in?";
       IdentifyResult.raw_toc_content := "";
       IdentifyResult.instruction := None |}
  ∧ _fetch_content_async (λ _, Raise "timed out") (λ q, Return q)
      ["Copilot Basics"] "How do I log in?"
    = {| FetchResult.success := false;
         FetchResult.error := Some "timed out";
         FetchResult.user_query := "How do I log in?";
         FetchResult.extracted_content := ∅;
         FetchResult.sections_found := None;
         FetchResult.instruction := None |}.
Proof.
  destruct (C9_fetch_failure_is_data (λ _, Raise "timed out") "pick sections"
              (λ q, Return q) ["Copilot Basics"] "How do I log in?" "timed out")
    as [Hidentify Hfetch].
  split; [apply Hidentify | apply Hfetch]; reflexivity.
Defined.

(** ** The link expression of the TOC parser *)

Section Links.
Implicit Types (s line text : string) (c : ascii).

Lemma span_not_spec c s :
  s = (span_not c s).1 +:+ (span_not c s).2
  ∧ has_char c (span_not c s).1 = false
  ∧ ((span_not c s).2 = "" ∨ ∃ r, (span_not c s).2 = String c r).
Proof.
  induction s as [|a s (IH1 & IH2 & IH3)]; simpl.
  - repeat split; by left.
  - destruct (Ascii.eqb_spec a c) as [->|Hne]; simpl.
    + repeat split. right. by eexists.
    + destruct (span_not c s) as [g r]. simpl in *.
      rewrite sapp_cons, <- IH1. repeat split; [|done].
      apply orb_false_iff. split; [|done]. by apply Ascii.eqb_neq.
Qed.

Lemma truthy_nonempty s : Py.truthy s = true → s ≠ "".
Proof. by destruct s. Qed.

Lemma match_link_at_spec s (group1 group2 : string) :
  match_link_at s = Some (group1, group2) →
  (∃ tail, s = group1 +:+ "](" +:+ group2 +:+ ")" +:+ tail)
  ∧ group1 ≠ "" ∧ group2 ≠ ""
  ∧ has_char "]" group1 = false ∧ has_char ")" group2 = false.
Proof.
  unfold match_link_at.
  destruct (span_not_spec "]" s) as (Hs & Hfree1 & Hr1).
  destruct (span_not "]" s) as [a r]. simpl in *.
  destruct r as [|c1 [|c2 s2]]; try done.
  destruct (Py.truthy a && Ascii.eqb c2 "(") eqn:Hguard; [|done].
  apply andb_true_iff in Hguard as [Ha Hc2]. apply Ascii.eqb_eq in Hc2 as ->.
  destruct Hr1 as [|[r [= -> _]]]; [done|].
  destruct (span_not_spec ")" s2) as (Hs2 & Hfree2 & Hr2).
  destruct (span_not ")" s2) as [b r2]. simpl in *.
  destruct r2 as [|c3 r3]; [done|].
  destruct Hr2 as [|[r' [= -> _]]]; [done|].
  destruct (Py.truthy b) eqn:Hb; [|done].
  intros [= <- <-]. repeat split; try done; try by apply truthy_nonempty.
  exists r3. by rewrite Hs, Hs2.
Qed.

Lemma re_search_link_spec line (group1 group2 : string) :
  re_search_link line = Some (group1, group2) →
  occurs_in ("[" +:+ group1 +:+ "](" +:+ group2 +:+ ")") line
  ∧ group1 ≠ "" ∧ group2 ≠ ""
  ∧ has_char "]" group1 = false ∧ has_char ")" group2 = false.
Proof.
  induction line as [|c line IH]; simpl; [done|].
  assert (Hrec : re_search_link line = Some (group1, group2) →
                 occurs_in ("[" +:+ group1 +:+ "](" +:+ group2 +:+ ")")
                           (String c line)
                 ∧ group1 ≠ "" ∧ group2 ≠ ""
                 ∧ has_char "]" group1 = false ∧ has_char ")" group2 = false).
  { intros (Hocc & ?)%IH. split; [by apply occurs_in_cons | done]. }
  destruct (Ascii.eqb_spec c "[") as [->|_]; [|done].
  destruct (match_link_at line) as [[g1 g2]|] eqn:Hat; [|done].
  intros [= -> ->].
  destruct (match_link_at_spec _ _ _ Hat) as ([tail ->] & ?).
  split; [|done]. exists "", tail.
  change ("" +:+ ?x) with x. by rewrite !sapp_assoc.
Qed.

Lemma parse_line_links text query st line :
  occurs_in (Py.strip line) text →
  Forall (from_link text) (sections st) →
  Forall (from_link text) (sections (parse_line query st line)).
Proof.
  intros Hline Hall. unfold parse_line.
  destruct (negb (Py.truthy (Py.strip line))); [done|].
  destruct (negb (Py.startswith_any BULLET_MARKERS (Py.strip line))).
  { by destruct (_ && _). }
  destruct (re_search_link (Py.strip line)) as [[g1 g2]|] eqn:Hre; [|done].
  destruct (query_rejects query _ _); [done|]. simpl.
  apply Forall_app. split; [done|]. constructor; [|constructor].
  destruct (re_search_link_spec _ _ _ Hre) as (Hocc & ? & ? & ? & ?).
  exists g1, g2. simpl. repeat split; try done.
  by eapply occurs_in_trans.
Qed.

Lemma parse_fold_links text query lines st :
  Forall (λ l, occurs_in (Py.strip l) text) lines →
  Forall (from_link text) (sections st) →
  Forall (from_link text) (sections (foldl (parse_line query) st lines)).
Proof.
  revert st. induction lines as [|l lines IH]; intros st Hlines Hall; [done|].
  inversion_clear Hlines as [|? ? Hl Hrest]. simpl.
  apply IH; [done|]. by apply parse_line_links.
Qed.

Lemma parse_toc_links toc_content query :
  Forall (from_link toc_content) (_parse_toc toc_content query).
Proof.
  unfold _parse_toc. apply parse_fold_links; [|constructor].
  apply Forall_forall. intros l Hl%split_line_occurs.
  eapply occurs_in_trans; [apply strip_occurs|].
  eapply occurs_in_trans; [done | apply strip_occurs].
Qed.

(** The stripped groups are themselves runs of characters of the text. *)
Lemma from_link_occurs text r :
  from_link text r → occurs_in (title r) text ∧ occurs_in (url r) text.
Proof.
  intros (g1 & g2 & Hocc & _ & _ & _ & _ & -> & ->). split.
  - eapply occurs_in_trans; [apply strip_occurs|].
    eapply occurs_in_trans; [|done].
    exists "[", ("](" +:+ g2 +:+ ")"). done.
  - eapply occurs_in_trans; [apply strip_occurs|].
    eapply occurs_in_trans; [|done].
    exists ("[" +:+ g1 +:+ "]("), ")". by rewrite !sapp_assoc.
Qed.
End Links.

(** C7 (amended): every record returned by [_parse_toc] comes from one
    [[title](url)] link occurrence of the input text: its title and its url
    are the whitespace-stripped texts of the two groups of that occurrence,
    which are non-empty, and both occur in the input text; the title or the
    url is empty when its group holds only whitespace. *)
Theorem C7_records_come_from_links (toc_content : string) (query : option string) :
  Forall (λ r, from_link toc_content r
               ∧ occurs_in (title r) toc_content
               ∧ occurs_in (url r) toc_content)
         (_parse_toc toc_content query).
Proof.
  eapply Forall_impl; [apply parse_toc_links|].
  intros r Hr. split; [done|]. by apply from_link_occurs.
Qed.

(** C7, as stated, fails: a link whose bracket text is one space gives a
    record with the empty title. *)
Lemma C7_counterexample :
  _parse_toc "- [ ](u)" None = [mkSectionRecord "" "" "u" ""]
  ∧ ¬ Forall (λ r, title r ≠ "" ∧ url r ≠ "") (_parse_toc "- [ ](u)" None).
Proof.
  assert (Hrun : _parse_toc "- [ ](u)" None = [mkSectionRecord "" "" "u" ""])
    by (vm_compute; reflexivity).
  split; [done|]. rewrite Hrun. inversion 1 as [|? ? [Ht _] _]. by apply Ht.
Qed.

(** ** Headings and the pattern list *)

Section Headings.
Implicit Types (full_docs title pattern line s h : string)
  (lines : list string).

(** A pattern that matches some line is in lower case: the line is
    lowercased before the test, the pattern is not. *)
Lemma line_matches_lower_pattern pattern line :
  line_matches pattern line = true → Py.lower pattern = pattern.
Proof.
  rewrite line_matches_contains, contains_spec. apply occurs_in_lower_fixed.
Qed.

Lemma lower_app_fixed a title :
  Py.lower (a +:+ title) = a +:+ title → Py.lower title = title.
Proof.
  intros Hfix. apply (occurs_in_lower_fixed title (a +:+ title)).
  rewrite Hfix. exists a, "". by rewrite sapp_nil_r.
Qed.

(** Whatever pattern built on the title matches a line, the line mentions
    the title, case aside. *)
Lemma match_mentions_title a title line :
  line_matches (a +:+ title) line = true →
  Py.contains (Py.lower title) (Py.lower line) = true.
Proof.
  intros Hm. pose proof (line_matches_lower_pattern _ _ Hm) as Hfix.
  apply lower_app_fixed in Hfix. rewrite Hfix.
  rewrite line_matches_contains, contains_spec in Hm.
  apply contains_spec. eapply occurs_in_trans; [|done].
  exists a, "". by rewrite sapp_nil_r.
Qed.

Lemma heading_matches_lower_title h title :
  line_matches (Py.lower title) (h +:+ title) = true.
Proof.
  rewrite line_matches_contains, contains_spec, lower_app.
  exists (Py.lower h), "". by rewrite sapp_nil_r.
Qed.

Lemma heading_matches_first_pattern h title :
  heading_prefix h → Py.lower title = title →
  line_matches ("# " +:+ title) (h +:+ title) = true.
Proof.
  intros Hh Hfix. rewrite line_matches_contains, contains_spec, lower_app, Hfix.
  destruct Hh as [->|[->| ->]].
  - exists "", "". by rewrite sapp_nil_r.
  - exists "#", "". by rewrite sapp_nil_r.
  - exists "##", "". by rewrite sapp_nil_r.
Qed.

(** The scan for one pattern, when the first matching line is known. *)
Lemma scan_lines_at pattern lines i line :
  lines !! i = Some line →
  Forall (λ l, line_matches pattern l = false) (take i lines) →
  line_matches pattern line = true →
  scan_lines pattern lines
  = Some (Py.join NL (accumulate line [line] (drop (S i) lines))).
Proof.
  revert i. induction lines as [|x lines IH]; intros i Hi Hpre Hm; [done|].
  destruct i as [|i]; simpl in *.
  - injection Hi as ->. by rewrite Hm.
  - inversion_clear Hpre as [|? ? Hx Hpre']. rewrite Hx. by apply IH.
Qed.

Lemma join_truthy line (tl : list string) :
  line ≠ "" → Py.truthy (Py.join NL (line :: tl)) = true.
Proof. intros Hne. destruct line; [done|]. by destruct tl. Qed.

Lemma contains_in_empty pattern : Py.contains pattern "" = true → pattern = "".
Proof. by destruct pattern. Qed.

Lemma lower_nonempty s : s ≠ "" → Py.lower s ≠ "".
Proof. by destruct s. Qed.

Lemma slug_nonempty s : s ≠ "" → Py.lower (Py.replace " " "-" s) ≠ "".
Proof.
  destruct s as [|c s]; [done|]. intros _. simpl.
  by destruct (Ascii.eqb c " ").
Qed.

Lemma patterns_nonempty title :
  title ≠ "" → Forall (λ p, p ≠ "") (patterns_to_try title).
Proof.
  intros Hne. unfold patterns_to_try.
  repeat (constructor; [try done|]); try constructor.
  - by apply lower_nonempty.
  - by apply slug_nonempty.
Qed.

(** A heading of the title is a line of the document: the search finds a
    text, and the text is not the empty string. *)
Lemma heading_present_found full_docs title h :
  heading_prefix h →
  (h +:+ title) ∈ Py.split LF full_docs →
  ∃ s, _find_section_content full_docs title = Some s ∧ Py.truthy s = true.
Proof.
  intros Hh Hin.
  assert (Hp5 : is_Some (scan_lines (Py.lower title) (Py.split LF full_docs))).
  { apply scan_lines_Some, Exists_exists. exists (h +:+ title).
    split; [done | apply heading_matches_lower_title]. }
  destruct (_find_section_content full_docs title) as [s|] eqn:Hfind.
  2:{ apply try_patterns_None in Hfind. rewrite Forall_forall in Hfind.
      assert (Hmem : Py.lower title ∈ patterns_to_try title)
        by (unfold patterns_to_try; set_solver).
      rewrite (Hfind _ Hmem) in Hp5. by destruct Hp5. }
  exists s. split; [done|].
  destruct (find_section_shape _ _ _ Hfind)
    as (k & p & i & line & n & b & Hk & Hnone & Hi & Hm & _ & Hn1 & _ & _ & _ & ->).
  assert (Hline : line ≠ "").
  { intros ->. rewrite line_matches_contains in Hm. simpl in Hm.
    apply contains_in_empty in Hm as ->.
    destruct (decide (title = "")) as [->|Hne].
    - destruct k as [|k]; [done|].
      simpl in Hnone. inversion_clear Hnone as [|? ? Hp1 _].
      apply scan_lines_None in Hp1. rewrite Forall_forall in Hp1.
      specialize (Hp1 _ Hin).
      pose proof (heading_matches_first_pattern h "" Hh eq_refl) as Hyes.
      change ("# " +:+ "") with "# " in *. congruence.
    - pose proof (patterns_nonempty _ Hne) as Hall.
      rewrite Forall_forall in Hall.
      apply (Hall ""); [|done]. by apply (list_elem_of_lookup_2 _ k). }
  rewrite (drop_S _ _ _ Hi). destruct n as [|n]; [lia|]. simpl.
  by apply join_truthy.
Qed.

(** The heading is the first line that mentions the title: the text
    starts with the heading line. *)
Lemma heading_first_mention full_docs title h i :
  heading_prefix h →
  Py.split LF full_docs !! i = Some (h +:+ title) →
  Forall (λ l, Py.contains (Py.lower title) (Py.lower l) = false)
         (take i (Py.split LF full_docs)) →
  ∃ n b,
    _find_section_content full_docs title
    = Some (Py.join NL ((h +:+ title)
                        :: take n (drop (S i) (Py.split LF full_docs))
                        ++ marker_if b)).
Proof.
  intros Hh Hi Hpre. unfold _find_section_content.
  set (lines := Py.split LF full_docs) in *.
  assert (Hacc : ∃ n b, accumulate (h +:+ title) [h +:+ title] (drop (S i) lines)
                        = (h +:+ title) :: take n (drop (S i) lines) ++ marker_if b).
  { destruct (accumulate_shape (h +:+ title) [h +:+ title] (drop (S i) lines))
      as (n & b & Heq & _); [simpl; lia|]. by exists n, b. }
  destruct Hacc as (n & b & Hacc). exists n, b. rewrite <- Hacc.
  assert (Hno : ∀ a, Forall (λ l, line_matches (a +:+ title) l = false)
                            (take i lines)).
  { intros a. eapply Forall_impl; [exact Hpre|]. intros l Hl. simpl in Hl.
    destruct (line_matches (a +:+ title) l) eqn:Hm; [|done].
    apply match_mentions_title in Hm. congruence. }
  destruct (decide (Py.lower title = title)) as [Hfix|Hcap].
  - unfold patterns_to_try. simpl.
    rewrite (scan_lines_at ("# " +:+ title) lines i (h +:+ title)); try done.
    by apply heading_matches_first_pattern.
  - assert (Hdead : ∀ a, scan_lines (a +:+ title) lines = None).
    { intros a. apply scan_lines_None, Forall_forall. intros l _.
      destruct (line_matches (a +:+ title) l) eqn:Hm; [|done].
      apply line_matches_lower_pattern, lower_app_fixed in Hm. done. }
    unfold patterns_to_try. simpl.
    pose proof (Hdead "") as Hverbatim.
    change ("" +:+ title) with title in Hverbatim.
    rewrite (Hdead "# "), (Hdead "## "), (Hdead "### "), Hverbatim.
    rewrite (scan_lines_at (Py.lower title) lines i (h +:+ title)); try done.
    + eapply Forall_impl; [exact Hpre|]. intros l Hl. simpl in Hl.
      by rewrite line_matches_contains.
    + apply heading_matches_lower_title.
Qed.
End Headings.

(** C2, as stated, fails: the heading line "## setup" is in the document,
    and the text returned for "setup" starts at an earlier line that
    contains "# setup" and stops before the heading. *)
Lemma C2_counterexample :
  "## setup" ∈ Py.split LF (doc ["see # setup below"; "# other"; "## setup"; "body"])
  ∧ _find_section_content
      (doc ["see # setup below"; "# other"; "## setup"; "body"]) "setup"
    = Some "see # setup below"
  ∧ Py.contains "## setup" "see # setup below" = false.
Proof.
  split; [vm_compute; set_solver|]. split; vm_compute; reflexivity.
Qed.

(** ** Case of the patterns *)

Section PatternCase.
Implicit Types (full_docs title pattern line : string) (lines : list string).

(** A pattern built on a title with a capital letter matches no line. *)
Lemma capital_title_pattern_dead a title line :
  Py.lower title ≠ title → line_matches (a +:+ title) line = false.
Proof.
  intros Hcap. destruct (line_matches (a +:+ title) line) eqn:Hm; [|done].
  by apply line_matches_lower_pattern, lower_app_fixed in Hm.
Qed.

(** On a pattern in lower case the test of the code is the test that the
    specification words. *)
Lemma spec_line_matches_lower pattern line :
  Py.lower pattern = pattern →
  spec_line_matches pattern line = line_matches pattern line.
Proof. unfold spec_line_matches, line_matches. by intros ->. Qed.

Lemma spec_scan_lines_lower pattern lines :
  Py.lower pattern = pattern →
  spec_scan_lines pattern lines = scan_lines pattern lines.
Proof.
  intros Hfix. induction lines as [|line rest IH]; simpl; [done|].
  by rewrite spec_line_matches_lower, IH.
Qed.

Lemma spec_try_patterns_lower patterns lines :
  Forall (λ p, Py.lower p = p) patterns →
  spec_try_patterns patterns lines = try_patterns patterns lines.
Proof.
  induction 1 as [|p patterns Hp _ IH]; simpl; [done|].
  by rewrite spec_scan_lines_lower, IH.
Qed.

(** For a title in lower case the code finds what the specification
    describes. *)
Lemma find_section_lower_title full_docs title :
  Py.lower title = title →
  spec_find_section full_docs title = _find_section_content full_docs title.
Proof.
  intros Hfix. apply spec_try_patterns_lower. unfold patterns_to_try.
  repeat constructor; rewrite ?lower_app, ?lower_idemp, ?Hfix; done.
Qed.
End PatternCase.

(** C5: the six patterns are tried in their order and the first matching
    line of the first matching pattern starts the section, but the substring
    test is not case-insensitive: the line is lowercased and the pattern is
    not.  On the title "Copilot Basics" the heading "# Copilot Basics" is
    what the stated rule selects, while the code, whose header patterns keep
    their capitals, starts at an earlier line that mentions the title. *)
Theorem C5_header_pattern_keeps_capitals :
  spec_find_section
    (doc ["About copilot basics."; "# Next"; "# Copilot Basics"; "Body"])
    "Copilot Basics"
  = Some (doc ["# Copilot Basics"; "Body"])
  ∧ _find_section_content
      (doc ["About copilot basics."; "# Next"; "# Copilot Basics"; "Body"])
      "Copilot Basics"
    = Some "About copilot basics."
  ∧ line_matches "# Copilot Basics" "# Copilot Basics" = false.
Proof. repeat split; vm_compute; reflexivity. Qed.


(** * Further properties of the section extractor *)

Section ExtractorMore.
Implicit Types (full_docs title pattern line s : string)
  (lines rest content_lines : list string).

(** The loop in closed form. *)
Lemma accumulate_closed line content_lines rest :
  length content_lines ≤ 100 →
  accumulate line content_lines rest
  = if length content_lines + length (body_lines line rest) <=? 100
    then content_lines ++ body_lines line rest
    else content_lines
           ++ take (101 - length content_lines) (body_lines line rest)
           ++ [TRUNCATION_MARKER].
Proof.
  revert content_lines.
  induction rest as [|x rest IH]; intros content_lines Hlen; simpl.
  - rewrite Nat.add_0_r. apply Nat.leb_le in Hlen. by rewrite Hlen, app_nil_r.
  - destruct (is_boundary line (Py.strip x)); simpl.
    { rewrite Nat.add_0_r. apply Nat.leb_le in Hlen. by rewrite Hlen, app_nil_r. }
    destruct (100 <? length (content_lines ++ [x])) eqn:Hcap.
    + apply Nat.ltb_lt in Hcap. rewrite length_app in Hcap. simpl in Hcap.
      rewrite (proj2 (Nat.leb_gt _ _)) by lia.
      replace (101 - length content_lines) with 1 by lia.
      simpl. rewrite ?take_0. by rewrite <- app_assoc.
    + apply Nat.ltb_ge in Hcap. rewrite length_app in Hcap. simpl in Hcap.
      rewrite IH by (rewrite length_app; simpl; lia).
      rewrite length_app. simpl.
      replace (length content_lines + 1 + length (body_lines line rest))
        with (length content_lines + S (length (body_lines line rest))) by lia.
      destruct (_ <=? 100).
      * by rewrite <- app_assoc.
      * replace (101 - length content_lines)
          with (S (101 - (length content_lines + 1))) by lia.
        simpl. by rewrite <- app_assoc.
Qed.

Lemma accumulate_section_lines line rest :
  accumulate line [line] rest = section_lines line rest.
Proof.
  rewrite accumulate_closed by (simpl; lia). unfold section_lines. simpl.
  destruct (length (body_lines line rest) <? 100) eqn:Hshort.
  - apply Nat.ltb_lt in Hshort.
    by rewrite (proj2 (Nat.leb_le _ _)) by lia.
  - apply Nat.ltb_ge in Hshort.
    by rewrite (proj2 (Nat.leb_gt _ _)) by lia.
Qed.

(** The scan for one pattern, read backwards: where the text starts. *)
Lemma scan_lines_closed pattern lines s :
  scan_lines pattern lines = Some s →
  ∃ i line,
    lines !! i = Some line
    ∧ line_matches pattern line = true
    ∧ Forall (λ l, line_matches pattern l = false) (take i lines)
    ∧ s = Py.join NL (section_lines line (drop (S i) lines)).
Proof.
  induction lines as [|x lines IH]; simpl; [done|].
  destruct (line_matches pattern x) eqn:Hm.
  - intros [= <-]. exists 0, x. rewrite accumulate_section_lines.
    by repeat split.
  - intros (i & line & Hi & Hl & Hpre & ->)%IH.
    exists (S i), line. repeat split; try done. simpl. by constructor.
Qed.

Lemma body_lines_sublist line rest : body_lines line rest `sublist_of` rest.
Proof.
  induction rest as [|x rest IH]; simpl; [done|].
  destruct (is_boundary line (Py.strip x)); [apply sublist_nil_l|].
  by apply sublist_skip.
Qed.

Lemma body_lines_no_boundary line rest :
  Forall (λ x, is_boundary line (Py.strip x) = false) (body_lines line rest).
Proof.
  induction rest as [|x rest IH]; simpl; [constructor|].
  destruct (is_boundary line (Py.strip x)) eqn:Hb; by constructor.
Qed.

Lemma section_lines_free line rest :
  has_char LF line = false →
  Forall (λ l, has_char LF l = false) rest →
  Forall (λ l, has_char LF l = false) (section_lines line rest).
Proof.
  intros Hline Hrest.
  assert (Hbody : Forall (λ l, has_char LF l = false) (body_lines line rest)).
  { rewrite Forall_forall in *. intros l Hl. apply Hrest.
    eapply elem_of_sublist; [done | apply body_lines_sublist]. }
  unfold section_lines. destruct (_ <? 100); constructor; try done.
  apply Forall_app. split; [by apply Forall_take|].
  constructor; [apply marker_free | constructor].
Qed.

(** Before the slug, every pattern is built on the title. *)
Lemma pattern_mentions title k pattern line :
  patterns_to_try title !! k = Some pattern →
  line_matches pattern line = true →
  mentions title line = true.
Proof.
  unfold mentions, patterns_to_try. intros Hk Hm. apply orb_true_iff.
  destruct k as [|[|[|[|[|[|k]]]]]]; simpl in Hk; try done;
    injection Hk as <-.
  - left. by eapply match_mentions_title.
  - left. by eapply match_mentions_title.
  - left. by eapply match_mentions_title.
  - left. by apply (match_mentions_title "").
  - left. by rewrite <- line_matches_contains.
  - right. by rewrite <- line_matches_contains.
Qed.

Lemma find_section_closed full_docs title s :
  _find_section_content full_docs title = Some s →
  ∃ i line,
    Py.split LF full_docs !! i = Some line
    ∧ mentions title line = true
    ∧ s = Py.join NL (section_lines line (drop (S i) (Py.split LF full_docs))).
Proof.
  unfold _find_section_content. intros Hs.
  destruct (try_patterns_shape _ _ _ Hs) as (k & p & Hk & Hscan & _).
  destruct (scan_lines_closed _ _ _ Hscan) as (i & line & Hi & Hm & _ & ->).
  exists i, line. repeat split; try done. by eapply pattern_mentions.
Qed.

Lemma find_section_None full_docs title :
  _find_section_content full_docs title = None
  ↔ Forall (λ l, mentions title l = false) (Py.split LF full_docs).
Proof.
  unfold _find_section_content. rewrite try_patterns_None. split.
  - intros Hall. rewrite Forall_forall in Hall.
    assert (H5 : scan_lines (Py.lower title) (Py.split LF full_docs) = None)
      by (apply Hall; unfold patterns_to_try; set_solver).
    assert (H6 : scan_lines (slug title) (Py.split LF full_docs) = None)
      by (apply Hall; unfold patterns_to_try, slug; set_solver).
    apply scan_lines_None in H5, H6. rewrite Forall_forall in *.
    intros l Hl. specialize (H5 l Hl). specialize (H6 l Hl). simpl in *.
    rewrite line_matches_contains in H5, H6. unfold mentions.
    by rewrite H5, H6.
  - intros Hnone. apply Forall_forall. intros p Hp.
    apply list_elem_of_lookup in Hp as [k Hk].
    apply scan_lines_None. rewrite Forall_forall in *. intros l Hl.
    destruct (line_matches p l) eqn:Hm; [|done].
    pose proof (Hnone l Hl) as Hno.
    by rewrite (pattern_mentions _ _ _ _ Hk Hm) in Hno.
Qed.
End ExtractorMore.

(** X1: [_find_section_content] returns [None] exactly when no line of the
    document mentions the title, that is, holds (case of the line aside) the
    lowercased title or the slug of the title; the header patterns never find
    a title that the plain patterns miss. *)
Theorem X1_not_found_iff_no_mention (full_docs title : string) :
  _find_section_content full_docs title = None
  ↔ Forall (λ l, mentions title l = false) (Py.split LF full_docs).
Proof. apply find_section_None. Qed.

(** X2: a text returned by [_find_section_content] is, joined by newlines, a
    line of the document that mentions the title, followed by the lines after
    it up to the first boundary line, cut after 100 of them and closed by the
    truncation marker when 100 or more follow. *)
Theorem X2_found_text_closed_form (full_docs title s : string) :
  _find_section_content full_docs title = Some s →
  ∃ i line,
    Py.split LF full_docs !! i = Some line
    ∧ mentions title line = true
    ∧ s = Py.join NL (section_lines line (drop (S i) (Py.split LF full_docs))).
Proof. apply find_section_closed. Qed.

Lemma X2_found_text_closed_form_witness :
  ∃ i line,
    Py.split LF (doc ["# Intro"; "## Setup"; "run it"; "# End"]) !! i = Some line
    ∧ mentions "setup" line = true
    ∧ doc ["## Setup"; "run it"]
      = Py.join NL
          (section_lines line
             (drop (S i) (Py.split LF (doc ["# Intro"; "## Setup"; "run it"; "# End"])))).
Proof.
  apply (X2_found_text_closed_form
           (doc ["# Intro"; "## Setup"; "run it"; "# End"]) "setup").
  vm_compute. reflexivity.
Defined.

(** X3: a text returned by [_find_section_content] never runs past a
    top-level header: after its first line, no line of it starts, once
    stripped, with "# ". *)
Theorem X3_text_stops_before_top_header (full_docs title s : string) :
  _find_section_content full_docs title = Some s →
  ∃ line tl,
    Py.split LF s = line :: tl
    ∧ line ∈ Py.split LF full_docs
    ∧ Forall (λ l, Py.startswith "# " (Py.strip l) = false) tl.
Proof.
  intros Hs. destruct (find_section_closed _ _ _ Hs) as (i & line & Hi & _ & ->).
  pose proof (split_no_sep LF full_docs) as Hfree.
  assert (Hline : line ∈ Py.split LF full_docs) by (by eapply list_elem_of_lookup_2).
  assert (Hsplit : Py.split LF
                     (Py.join NL (section_lines line (drop (S i) (Py.split LF full_docs))))
                   = section_lines line (drop (S i) (Py.split LF full_docs))).
  { apply split_join.
    - unfold section_lines. by destruct (_ <? 100).
    - apply section_lines_free; [|by apply Forall_drop].
      rewrite Forall_forall in Hfree. by apply Hfree. }
  rewrite Hsplit. unfold section_lines.
  assert (Hbody : Forall (λ l, Py.startswith "# " (Py.strip l) = false)
                         (body_lines line (drop (S i) (Py.split LF full_docs)))).
  { eapply Forall_impl; [apply body_lines_no_boundary|].
    intros l Hl. simpl in Hl. unfold is_boundary in Hl.
    by apply orb_false_iff in Hl as [? _]. }
  destruct (_ <? 100); eexists _, _; split; try done; split; try done.
  apply Forall_app. split; [by apply Forall_take|].
  constructor; [reflexivity | constructor].
Qed.

Lemma X3_text_stops_before_top_header_witness :
  ∃ line tl,
    Py.split LF (doc ["## Setup"; "run it"]) = line :: tl
    ∧ line ∈ Py.split LF (doc ["# Intro"; "## Setup"; "run it"; "# End"])
    ∧ Forall (λ l, Py.startswith "# " (Py.strip l) = false) tl.
Proof.
  apply (X3_text_stops_before_top_header
           (doc ["# Intro"; "## Setup"; "run it"; "# End"]) "setup").
  vm_compute. reflexivity.
Defined.

(** X4: the header pattern has priority: when a line holds "# " followed by
    the title once the line is lowercased, the text starts at the first such
    line, whatever earlier lines mention the title without the hash. *)
Theorem X4_header_pattern_first (full_docs title : string) (i : nat) (line : string) :
  Py.split LF full_docs !! i = Some line →
  Py.contains ("# " +:+ title) (Py.lower line) = true →
  Forall (λ l, Py.contains ("# " +:+ title) (Py.lower l) = false)
         (take i (Py.split LF full_docs)) →
  _find_section_content full_docs title
  = Some (Py.join NL (section_lines line (drop (S i) (Py.split LF full_docs)))).
Proof.
  intros Hi Hm Hpre. unfold _find_section_content, patterns_to_try. simpl.
  rewrite (scan_lines_at ("# " +:+ title) _ i line); try done.
  - by rewrite accumulate_section_lines.
  - eapply Forall_impl; [exact Hpre|]. intros l Hl. simpl in Hl.
    by rewrite line_matches_contains.
  - by rewrite line_matches_contains.
Qed.

Lemma X4_header_pattern_first_witness :
  _find_section_content (doc ["all about setup"; "## setup"; "run it"; "# end"]) "setup"
  = Some (Py.join NL
            (section_lines "## setup"
               (drop 2 (Py.split LF (doc ["all about setup"; "## setup"; "run it"; "# end"]))))).
Proof.
  apply (X4_header_pattern_first
           (doc ["all about setup"; "## setup"; "run it"; "# end"]) "setup" 1 "## setup").
  - reflexivity.
  - reflexivity.
  - repeat constructor.
Defined.

(** X5: every requested title has an entry that is never the empty string:
    the text found for it when the search returns a non-empty text, and
    exactly the placeholder "Section '<title>' not found in documentation."
    when the search returns nothing, whatever the other titles are. *)
Theorem X5_entry_of_requested_title (full_docs : string)
    (section_titles : list string) (t : string) :
  t ∈ section_titles →
  ∃ v,
    _extract_sections_from_docs full_docs section_titles !! t = Some v
    ∧ v ≠ ""
    ∧ (_find_section_content full_docs t = None → v = not_found t)
    ∧ (∀ s, _find_section_content full_docs t = Some s → s ≠ "" → v = s).
Proof.
  intros Hin. exists (section_entry full_docs t).
  rewrite extract_lookup, decide_True by done. unfold section_entry.
  destruct (_find_section_content full_docs t) as [s|] eqn:Hfind.
  - destruct s as [|c s]; simpl; repeat split; try done.
    + by intros s [= <-] ?.
    + by intros s' [= <-] _.
  - repeat split; done.
Qed.

Lemma X5_entry_of_requested_title_witness :
  ∃ v,
    _extract_sections_from_docs (doc ["# Intro"; "text"]) ["Missing"; "Intro"] !! "Missing"
    = Some v
    ∧ v ≠ ""
    ∧ (_find_section_content (doc ["# Intro"; "text"]) "Missing" = None
       → v = not_found "Missing")
    ∧ (∀ s, _find_section_content (doc ["# Intro"; "text"]) "Missing" = Some s →
            s ≠ "" → v = s).
Proof.
  apply (X5_entry_of_requested_title (doc ["# Intro"; "text"]) ["Missing"; "Intro"]).
  set_solver.
Defined.

(** X6: the mapping depends only on which titles are requested: two lists
    with the same members, in any order and with any repetitions, give the
    same mapping. *)
Theorem X6_mapping_depends_on_title_set (full_docs : string)
    (titles1 titles2 : list string) :
  (∀ t, t ∈ titles1 ↔ t ∈ titles2) →
  _extract_sections_from_docs full_docs titles1
  = _extract_sections_from_docs full_docs titles2.
Proof.
  intros Hsame. apply map_eq. intros t. rewrite !extract_lookup.
  destruct (decide (t ∈ titles1)) as [H1|H1];
    destruct (decide (t ∈ titles2)) as [H2|H2]; try done.
  - by apply Hsame in H1.
  - by apply Hsame in H2.
Qed.

Lemma X6_mapping_depends_on_title_set_witness :
  _extract_sections_from_docs (doc ["# a"; "x"; "# b"; "y"]) ["a"; "b"; "a"]
  = _extract_sections_from_docs (doc ["# a"; "x"; "# b"; "y"]) ["b"; "a"].
Proof.
  apply (X6_mapping_depends_on_title_set (doc ["# a"; "x"; "# b"; "y"])
           ["a"; "b"; "a"] ["b"; "a"]).
  intros t. rewrite !elem_of_cons. tauto.
Defined.


(** * Further properties of the TOC parser *)

Section StripFacts.
Implicit Types (s : string) (c : ascii).

Lemma lstrip_idemp s : Py.lstrip (Py.lstrip s) = Py.lstrip s.
Proof.
  induction s as [|c s IH]; simpl; [done|].
  destruct (Py.isspace c) eqn:Hc; [done|]. simpl. by rewrite Hc.
Qed.

Lemma rstrip_idemp s : Py.rstrip (Py.rstrip s) = Py.rstrip s.
Proof.
  induction s as [|c s IH]; simpl; [done|].
  destruct (Py.rstrip s) as [|d r] eqn:Hr.
  - destruct (Py.isspace c) eqn:Hc; [done|]. simpl. by rewrite Hc.
  - change (Py.rstrip (String c (String d r)))
      with (match Py.rstrip (String d r) with
            | EmptyString => if Py.isspace c then EmptyString else String c EmptyString
            | x => String c x
            end).
    by rewrite IH.
Qed.

Lemma rstrip_lstrip s : Py.rstrip (Py.lstrip s) = Py.lstrip (Py.rstrip s).
Proof.
  induction s as [|c s IH]; [done|].
  change (Py.lstrip (String c s))
    with (if Py.isspace c then Py.lstrip s else String c s).
  change (Py.rstrip (String c s))
    with (match Py.rstrip s with
          | EmptyString => if Py.isspace c then EmptyString else String c EmptyString
          | x => String c x
          end).
  destruct (Py.isspace c) eqn:Hc.
  - rewrite IH. destruct (Py.rstrip s) as [|d r]; [done|]. simpl. by rewrite Hc.
  - change (Py.rstrip (String c s))
      with (match Py.rstrip s with
            | EmptyString => if Py.isspace c then EmptyString else String c EmptyString
            | x => String c x
            end).
    rewrite Hc. destruct (Py.rstrip s) as [|d r]; simpl; by rewrite Hc.
Qed.

Lemma strip_idemp s : Py.strip (Py.strip s) = Py.strip s.
Proof.
  unfold Py.strip. by rewrite rstrip_lstrip, rstrip_idemp, lstrip_idemp.
Qed.

(** A stripped string starts with no whitespace. *)
Lemma strip_head s c r : Py.strip s = String c r → Py.isspace c = false.
Proof.
  unfold Py.strip. generalize (Py.rstrip s). clear s. intros s.
  induction s as [|d s IH]; simpl; [done|].
  destruct (Py.isspace d) eqn:Hd; [done|]. by intros [= <- _].
Qed.

(** A string that starts with no whitespace is not stripped to nothing. *)
Lemma strip_keeps_head c r : Py.isspace c = false → Py.strip (String c r) ≠ "".
Proof.
  intros Hc. unfold Py.strip. simpl.
  destruct (Py.rstrip r); rewrite ?Hc; simpl; by rewrite Hc.
Qed.

Lemma has_char_app c (a b : string) :
  has_char c (a +:+ b) = has_char c a || has_char c b.
Proof.
  induction a as [|d a IH]; [done|]. rewrite sapp_cons. simpl.
  by rewrite IH, orb_assoc.
Qed.

Lemma has_char_occurs c (p s : string) :
  occurs_in p s → has_char c s = false → has_char c p = false.
Proof.
  intros (a & b & ->). rewrite !has_char_app.
  intros [_ [? _]%orb_false_iff]%orb_false_iff. done.
Qed.

Lemma startswith_char c x (r : string) :
  Py.startswith (String c "") (String x r) = Ascii.eqb c x.
Proof. simpl. by destruct (Ascii.eqb c x). Qed.

Lemma replace_cons_ne c x (new r : string) :
  Ascii.eqb x c = false →
  Py.replace c new (String x r) = String x (Py.replace c new r).
Proof. intros Hx. simpl. by rewrite Hx. Qed.

Lemma replace_removes c s : has_char c (Py.replace c "" s) = false.
Proof.
  induction s as [|d s IH]; simpl; [done|].
  destruct (Ascii.eqb d c) eqn:Hd; [done|]. simpl. by rewrite Hd.
Qed.
End StripFacts.

Section TocMore.
Implicit Types (q line toc_content : string) (st : toc_state)
  (lines : list string) (query : option string).

(** The loop body by cases: a category header, an entry line, any other
    line. *)
Lemma parse_line_cases query st line :
  parse_line query st line
  = match header_category line with
    | Some c => mkTocState (sections st) c
    | None =>
        if entry_line line
        then match record_of (current_category st) line with
             | Some r =>
                 if query_rejects query (title r) (current_category st) then st
                 else mkTocState (sections st ++ [r]) (current_category st)
             | None => st
             end
        else st
    end.
Proof.
  unfold parse_line, header_category, entry_line, record_of.
  generalize (Py.strip line). intros l.
  destruct (Py.truthy l); cbn [negb andb]; [|done].
  destruct (Py.startswith_any BULLET_MARKERS l); cbn [negb andb].
  - by destruct (re_search_link l) as [[g1 g2]|].
  - by destruct (Py.startswith "#" l), (Py.startswith "http" l).
Qed.

Lemma entry_line_record c line :
  entry_line line = true → is_Some (record_of c line).
Proof.
  unfold entry_line, record_of. intros [_ Hlink]%andb_true_iff.
  by destruct (re_search_link (Py.strip line)) as [[g1 g2]|].
Qed.

Lemma query_rejects_hits q (r : SectionRecord) :
  query_rejects (Some q) (title r) (category r) = negb (query_hitsb q r).
Proof.
  unfold query_rejects, query_hitsb. destruct q as [|c q]; simpl.
  - by rewrite contains_empty.
  - by rewrite negb_orb.
Qed.

Lemma record_of_category c line r : record_of c line = Some r → category r = c.
Proof.
  unfold record_of. destruct (re_search_link _) as [[g1 g2]|]; [|done].
  by intros [= <-].
Qed.

(** The filtered run holds the records of the unfiltered run that the query
    hits, and tracks the same category. *)
Lemma parse_fold_filter_eq q lines st1 st2 :
  current_category st1 = current_category st2 →
  sections st1 = List.filter (query_hitsb q) (sections st2) →
  current_category (foldl (parse_line (Some q)) st1 lines)
  = current_category (foldl (parse_line None) st2 lines)
  ∧ sections (foldl (parse_line (Some q)) st1 lines)
    = List.filter (query_hitsb q) (sections (foldl (parse_line None) st2 lines)).
Proof.
  revert st1 st2. induction lines as [|line lines IH]; intros st1 st2 Hcat Hsec.
  - done.
  - simpl. apply IH; rewrite !parse_line_cases, <- Hcat;
      destruct (header_category line); try done;
      destruct (entry_line line); try done;
      destruct (record_of (current_category st1) line) as [r|] eqn:Hr; try done;
      pose proof (record_of_category _ _ _ Hr) as Hc;
      rewrite <- Hc at 1; rewrite query_rejects_hits; simpl;
      destruct (query_hitsb q r) eqn:Hhit; simpl; try done;
      rewrite List.filter_app, Hsec; simpl; rewrite Hhit; try done.
    by rewrite app_nil_r.
Qed.

Lemma parse_toc_filter_eq toc_content q :
  _parse_toc toc_content (Some q)
  = List.filter (query_hitsb q) (_parse_toc toc_content None).
Proof.
  unfold _parse_toc.
  by destruct (parse_fold_filter_eq q (Py.split LF (Py.strip toc_content))
                 (mkTocState [] "") (mkTocState [] "")) as [_ ?].
Qed.

(** Without a query every entry line adds one record. *)
Lemma parse_fold_count lines st :
  length (sections (foldl (parse_line None) st lines))
  = length (sections st) + length (List.filter entry_line lines).
Proof.
  revert st. induction lines as [|line lines IH]; intros st; simpl; [lia|].
  rewrite IH, parse_line_cases.
  destruct (header_category line) as [c|] eqn:Hh.
  - assert (Hno : entry_line line = false).
    { unfold header_category, entry_line in *.
      destruct (Py.truthy (Py.strip line)); [|done].
      destruct (Py.startswith_any BULLET_MARKERS (Py.strip line)); done. }
    by rewrite Hno.
  - destruct (entry_line line) eqn:He; [|done].
    destruct (entry_line_record (current_category st) line He) as [r ->].
    simpl. rewrite length_app. simpl. lia.
Qed.
End TocMore.

Section TocInvariants.
Implicit Types (q line toc_content : string) (st : toc_state)
  (lines : list string) (query : option string).

Lemma header_category_tidy line c :
  header_category line = Some c →
  Py.strip c = c ∧ has_char "#" c = false ∧ c ≠ "".
Proof.
  unfold header_category.
  destruct (_ && _) eqn:Hcond; [|done]. intros [= <-].
  split; [apply strip_idemp|]. split.
  - eapply has_char_occurs; [apply strip_occurs | apply replace_removes].
  - destruct (Py.strip line) as [|x r] eqn:Hl; [done|].
    apply andb_true_iff in Hcond as [[_ Hhash]%andb_true_iff _].
    apply negb_true_iff in Hhash. rewrite startswith_char in Hhash.
    apply Ascii.eqb_neq in Hhash.
    rewrite replace_cons_ne by (apply Ascii.eqb_neq; congruence).
    apply strip_keeps_head. by eapply strip_head.
Qed.

Lemma record_of_tidy c line r :
  Py.strip c = c → has_char "#" c = false → record_of c line = Some r → tidy r.
Proof.
  unfold record_of. intros Hc Hhash.
  destruct (re_search_link (Py.strip line)) as [[g1 g2]|]; [|done].
  intros [= <-]. unfold tidy. simpl. by rewrite !strip_idemp.
Qed.

Lemma parse_line_tidy query st line :
  Forall tidy (sections st) →
  Py.strip (current_category st) = current_category st →
  has_char "#" (current_category st) = false →
  Forall tidy (sections (parse_line query st line))
  ∧ Py.strip (current_category (parse_line query st line))
    = current_category (parse_line query st line)
  ∧ has_char "#" (current_category (parse_line query st line)) = false.
Proof.
  intros Hall Hstrip Hhash. rewrite parse_line_cases.
  destruct (header_category line) as [c|] eqn:Hh.
  { destruct (header_category_tidy _ _ Hh) as (? & ? & _). by repeat split. }
  destruct (entry_line line); [|done].
  destruct (record_of (current_category st) line) as [r|] eqn:Hr; [|done].
  destruct (query_rejects _ _ _); [done|]. simpl. repeat split; try done.
  apply Forall_app. split; [done|]. constructor; [|constructor].
  by eapply record_of_tidy.
Qed.

Lemma parse_fold_tidy query lines st :
  Forall tidy (sections st) →
  Py.strip (current_category st) = current_category st →
  has_char "#" (current_category st) = false →
  Forall tidy (sections (foldl (parse_line query) st lines)).
Proof.
  revert st. induction lines as [|line lines IH]; intros st Hall Hs Hh; [done|].
  simpl. destruct (parse_line_tidy query st line Hall Hs Hh) as (? & ? & ?).
  by apply IH.
Qed.

Lemma parse_fold_category_from query (all lines : list string) st :
  (∀ l, l ∈ lines → l ∈ all) →
  Forall (λ r, category_from all (category r)) (sections st) →
  category_from all (current_category st) →
  Forall (λ r, category_from all (category r))
         (sections (foldl (parse_line query) st lines)).
Proof.
  revert st. induction lines as [|line lines IH]; intros st Hsub Hall Hcat; [done|].
  simpl. apply IH.
  - intros l Hl. apply Hsub. by right.
  - rewrite parse_line_cases.
    destruct (header_category line) as [c|]; [done|].
    destruct (entry_line line); [|done].
    destruct (record_of (current_category st) line) as [r|] eqn:Hr; [|done].
    destruct (query_rejects _ _ _); [done|]. simpl.
    apply Forall_app. split; [done|]. constructor; [|constructor].
    by rewrite (record_of_category _ _ _ Hr).
  - rewrite parse_line_cases.
    destruct (header_category line) as [c|] eqn:Hh.
    { right. exists line. split; [apply Hsub; by left | done]. }
    destruct (entry_line line); [|done].
    destruct (record_of (current_category st) line) as [r|]; [|done].
    by destruct (query_rejects _ _ _).
Qed.

Lemma re_search_no_bracket (s : string) :
  has_char "[" s = false → re_search_link s = None.
Proof.
  induction s as [|c s IH]; simpl; [done|].
  intros [Hc Hs]%orb_false_iff. rewrite Hc. by apply IH.
Qed.

Lemma span_not_app c (g r : string) :
  has_char c g = false → span_not c (g +:+ String c r) = (g, String c r).
Proof.
  induction g as [|a g IH]; intros Hfree.
  - change ("" +:+ ?x) with x. simpl. by rewrite Ascii.eqb_refl.
  - simpl in Hfree. apply orb_false_iff in Hfree as [Ha Hg].
    rewrite sapp_cons. simpl. by rewrite Ha, IH.
Qed.

Lemma match_link_at_complete (group1 group2 tail : string) :
  group1 ≠ "" → group2 ≠ "" →
  has_char "]" group1 = false → has_char ")" group2 = false →
  match_link_at (group1 +:+ "](" +:+ group2 +:+ ")" +:+ tail)
  = Some (group1, group2).
Proof.
  intros H1 H2 Hf1 Hf2. unfold match_link_at.
  change ("](" +:+ group2 +:+ ")" +:+ tail)
    with (String "]" (String "(" (group2 +:+ String ")" tail))).
  rewrite span_not_app by done.
  rewrite span_not_app by done.
  destruct group1; [done|]. by destruct group2.
Qed.

Lemma re_search_link_complete (line group1 group2 : string) :
  occurs_in ("[" +:+ group1 +:+ "](" +:+ group2 +:+ ")") line →
  group1 ≠ "" → group2 ≠ "" →
  has_char "]" group1 = false → has_char ")" group2 = false →
  is_Some (re_search_link line).
Proof.
  intros (a & b & ->) H1 H2 Hf1 Hf2.
  induction a as [|c a IH].
  - change ("" +:+ ?x) with x. rewrite !sapp_assoc.
    change ("[" +:+ ?x) with (String "[" x). simpl.
    by rewrite match_link_at_complete.
  - rewrite sapp_cons. simpl.
    destruct (Ascii.eqb c "["); [|done].
    by destruct (match_link_at _).
Qed.
End TocInvariants.

Section TocResults.
Implicit Types (q toc_content : string) (query : option string).

Lemma filter_all_true {A : Type} (f : A → bool) (l : list A) :
  (∀ x, f x = true) → List.filter f l = l.
Proof.
  intros Hf. induction l as [|x l IH]; simpl; [done|]. by rewrite Hf, IH.
Qed.

Lemma filter_shorter {A : Type} (f : A → bool) (l : list A) :
  length (List.filter f l) ≤ length l.
Proof.
  induction l as [|x l IH]; simpl; [done|]. destruct (f x); simpl; lia.
Qed.

Lemma toc_line_occurs toc_content l :
  l ∈ Py.split LF (Py.strip toc_content) → occurs_in (Py.strip l) toc_content.
Proof.
  intros Hl%split_line_occurs.
  eapply occurs_in_trans; [apply strip_occurs|].
  eapply occurs_in_trans; [done | apply strip_occurs].
Qed.

Lemma parse_toc_count toc_content :
  length (_parse_toc toc_content None)
  = length (List.filter entry_line (Py.split LF (Py.strip toc_content))).
Proof. unfold _parse_toc. by rewrite parse_fold_count. Qed.
End TocResults.

(** X7: the query filter is exact and does not disturb the category
    tracking: the output with a query is the output without a query from
    which the records that the query does not hit are removed; the empty
    query removes nothing. *)
Theorem X7_query_filter_is_exact (toc_content q : string) :
  _parse_toc toc_content (Some q)
  = List.filter (query_hitsb q) (_parse_toc toc_content None)
  ∧ _parse_toc toc_content (Some "") = _parse_toc toc_content None.
Proof.
  split; [apply parse_toc_filter_eq|].
  rewrite parse_toc_filter_eq. apply filter_all_true.
  intros r. unfold query_hitsb. simpl. by rewrite contains_empty.
Qed.

(** X8: the query is compared without regard to its case: two queries with
    the same lowercase form select the same records. *)
Theorem X8_query_case_is_ignored (toc_content q1 q2 : string) :
  Py.lower q1 = Py.lower q2 →
  _parse_toc toc_content (Some q1) = _parse_toc toc_content (Some q2).
Proof.
  intros Hlow. rewrite !parse_toc_filter_eq. unfold query_hitsb.
  by rewrite Hlow.
Qed.

Lemma X8_query_case_is_ignored_witness :
  _parse_toc (doc ["Dashboards"; "- [Overview](https://x/o)"; "Copilot"; "- [Basics](https://x/b)"])
    (Some "DASH")
  = _parse_toc (doc ["Dashboards"; "- [Overview](https://x/o)"; "Copilot"; "- [Basics](https://x/b)"])
      (Some "dash").
Proof.
  apply (X8_query_case_is_ignored
           (doc ["Dashboards"; "- [Overview](https://x/o)"; "Copilot"; "- [Basics](https://x/b)"])
           "DASH" "dash").
  reflexivity.
Defined.

(** X9: without a query the parser returns one record per entry line, a
    line that once stripped is not empty, starts with a bullet marker and
    holds a link: further links of a line, and every other line, add
    nothing.  With a query it returns no more. *)
Theorem X9_one_record_per_entry_line (toc_content : string) (query : option string) :
  length (_parse_toc toc_content None)
  = length (List.filter entry_line (Py.split LF (Py.strip toc_content)))
  ∧ length (_parse_toc toc_content query)
    ≤ length (List.filter entry_line (Py.split LF (Py.strip toc_content))).
Proof.
  split; [apply parse_toc_count|]. rewrite <- parse_toc_count.
  destruct query as [q|]; [|done].
  rewrite parse_toc_filter_eq. apply filter_shorter.
Qed.

(** X10: the link search succeeds exactly on the lines that hold a link: an
    opening bracket, a non-empty text free of "]", the two characters "](",
    a non-empty text free of ")", and a closing parenthesis. *)
Theorem X10_link_found_iff (line : string) :
  is_Some (re_search_link line)
  ↔ ∃ group1 group2,
      occurs_in ("[" +:+ group1 +:+ "](" +:+ group2 +:+ ")") line
      ∧ group1 ≠ "" ∧ group2 ≠ ""
      ∧ has_char "]" group1 = false ∧ has_char ")" group2 = false.
Proof.
  split.
  - intros [[g1 g2] Hre]. exists g1, g2. by apply re_search_link_spec.
  - intros (g1 & g2 & Hocc & ? & ? & ? & ?). by eapply re_search_link_complete.
Qed.

(** X11: every record returned by [_parse_toc] is tidy: its description is
    "<category>: <title>", or the title alone when the category is empty;
    title, url and category carry no surrounding whitespace; the category
    holds no hash. *)
Theorem X11_records_are_tidy (toc_content : string) (query : option string) :
  Forall tidy (_parse_toc toc_content query).
Proof. unfold _parse_toc. by apply parse_fold_tidy. Qed.

(** X12: the category of every record is the empty string or the category
    set by a header line of the TOC (the stripped line without its hashes),
    and a header line never sets the empty category. *)
Theorem X12_category_comes_from_header (toc_content : string) (query : option string) :
  Forall (λ r, category_from (Py.split LF (Py.strip toc_content)) (category r))
         (_parse_toc toc_content query)
  ∧ (∀ l c, header_category l = Some c → c ≠ "").
Proof.
  split.
  - unfold _parse_toc. apply parse_fold_category_from; [done | constructor | by left].
  - intros l c Hh. by destruct (header_category_tidy _ _ Hh) as (_ & _ & ?).
Qed.

(** X13: a TOC text without an opening bracket, the empty text included,
    yields no record. *)
Theorem X13_no_bracket_no_record (toc_content : string) (query : option string) :
  has_char "[" toc_content = false → _parse_toc toc_content query = [].
Proof.
  intros Hfree.
  assert (Hnone : _parse_toc toc_content None = []).
  { apply length_zero_iff_nil. rewrite parse_toc_count.
    assert (Hno : Forall (λ l, entry_line l = false)
                         (Py.split LF (Py.strip toc_content))).
    { apply Forall_forall. intros l Hl%toc_line_occurs.
      unfold entry_line.
      rewrite re_search_no_bracket by (by eapply has_char_occurs).
      by rewrite andb_false_r. }
    induction Hno as [|l ls Hl _ IH]; simpl; [done|]. by rewrite Hl. }
  destruct query as [q|]; [|done].
  by rewrite parse_toc_filter_eq, Hnone.
Qed.

Lemma X13_no_bracket_no_record_witness :
  _parse_toc (doc ["Getting Started"; "- Copilot Basics (https://x/copilot)"; ""]) (Some "copilot")
  = [].
Proof.
  apply (X13_no_bracket_no_record
           (doc ["Getting Started"; "- Copilot Basics (https://x/copilot)"; ""])
           (Some "copilot")).
  reflexivity.
Defined.


(** * The instruction text of the fetch tool *)

Example format_samples :
  PyFormat.format {[ "query" := "hi" ]} None "a {{b}} {query}" = Some (Return "a {b} hi")
  ∧ PyFormat.format {[ "query" := "hi" ]} None "a } b"
    = Some (Raise "Single '}' encountered in format string")
  ∧ PyFormat.format {[ "query" := "hi" ]} None "x {que ry} {"
    = Some (Raise "'que ry'")
  ∧ PyFormat.format {[ "query" := "hi" ]} None "{query:>5}" = None.
Proof. repeat split; vm_compute; reflexivity. Qed.

Lemma fetch_template_raises (rest user_query : string) :
  format_fetch_instruction rest user_query = Some (Raise WEBSITE_KEY_ERROR).
Proof. vm_compute. reflexivity. Qed.

(** X14: the fetch tool never reports success.  The instruction template
    holds the brace group [{"Website": url}] after [{query}], so
    [.format(query=user_query)] raises [KeyError] for every query; the
    handler turns it into the failure dict, with no extracted content, even
    when the document was fetched and the sections were extracted. *)
Theorem X14_fetch_tool_never_succeeds
    (http_get_text : string → outcome string) (rest : string)
    (format_instruction : string → outcome string)
    (section_titles : list string) (user_query : string) :
  (∀ q, format_fetch_instruction rest q = Some (format_instruction q)) →
  FetchResult.success
    (fetch_openbb_content http_get_text format_instruction section_titles user_query)
  = false
  ∧ FetchResult.extracted_content
      (fetch_openbb_content http_get_text format_instruction section_titles user_query)
    = ∅
  ∧ FetchResult.sections_found
      (fetch_openbb_content http_get_text format_instruction section_titles user_query)
    = None
  ∧ (∀ full_docs, http_get_text FULL_DOCS_URL = Return full_docs →
       FetchResult.error
         (fetch_openbb_content http_get_text format_instruction section_titles user_query)
       = Some WEBSITE_KEY_ERROR).
Proof.
  intros Hformat.
  assert (Hraise : format_instruction user_query = Raise WEBSITE_KEY_ERROR).
  { specialize (Hformat user_query). rewrite fetch_template_raises in Hformat.
    by injection Hformat as <-. }
  unfold fetch_openbb_content, _fetch_content_async.
  destruct (http_get_text FULL_DOCS_URL) as [d|e] eqn:Hget; simpl.
  - rewrite Hraise. simpl. by repeat split.
  - by repeat split.
Qed.

Lemma X14_fetch_tool_never_succeeds_witness :
  FetchResult.success
    (fetch_openbb_content (λ _, Return (doc ["# Copilot Basics"; "Ask it."]))
       (λ _, Raise WEBSITE_KEY_ERROR) ["Copilot Basics"] "How do I ask?")
  = false
  ∧ FetchResult.extracted_content
      (fetch_openbb_content (λ _, Return (doc ["# Copilot Basics"; "Ask it."]))
         (λ _, Raise WEBSITE_KEY_ERROR) ["Copilot Basics"] "How do I ask?")
    = ∅
  ∧ FetchResult.sections_found
      (fetch_openbb_content (λ _, Return (doc ["# Copilot Basics"; "Ask it."]))
         (λ _, Raise WEBSITE_KEY_ERROR) ["Copilot Basics"] "How do I ask?")
    = None
  ∧ (∀ full_docs,
       (λ _ : string, Return (doc ["# Copilot Basics"; "Ask it."])) FULL_DOCS_URL
       = Return full_docs →
       FetchResult.error
         (fetch_openbb_content (λ _, Return (doc ["# Copilot Basics"; "Ask it."]))
            (λ _, Raise WEBSITE_KEY_ERROR) ["Copilot Basics"] "How do I ask?")
       = Some WEBSITE_KEY_ERROR).
Proof.
  apply (X14_fetch_tool_never_succeeds
           (λ _, Return (doc ["# Copilot Basics"; "Ask it."])) ""
           (λ _, Raise WEBSITE_KEY_ERROR) ["Copilot Basics"] "How do I ask?").
  intros q. vm_compute. reflexivity.
Defined.

(** X15: for a title with a capital letter the four patterns that keep the
    title as given match no line at all, so the search is the search for the
    lowercased title and then for the slug. *)
Theorem X15_capital_title_uses_last_two_patterns (full_docs title : string) :
  Py.lower title ≠ title →
  (∀ a line, line_matches (a +:+ title) line = false)
  ∧ _find_section_content full_docs title
    = try_patterns [Py.lower title; slug title] (Py.split LF full_docs).
Proof.
  intros Hcap. split; [intros a line; by apply capital_title_pattern_dead|].
  assert (Hdead : ∀ a, scan_lines (a +:+ title) (Py.split LF full_docs) = None).
  { intros a. apply scan_lines_None, Forall_forall. intros l _.
    by apply capital_title_pattern_dead. }
  unfold _find_section_content, patterns_to_try, slug.
  pose proof (Hdead "") as Hverbatim.
  change ("" +:+ title) with title in Hverbatim.
  simpl. by rewrite (Hdead "# "), (Hdead "## "), (Hdead "### "), Hverbatim.
Qed.

Lemma X15_capital_title_uses_last_two_patterns_witness :
  (∀ a line, line_matches (a +:+ "Copilot Basics") line = false)
  ∧ _find_section_content (doc ["# Copilot Basics"; "Ask it."]) "Copilot Basics"
    = try_patterns [Py.lower "Copilot Basics"; slug "Copilot Basics"]
        (Py.split LF (doc ["# Copilot Basics"; "Ask it."])).
Proof.
  apply (X15_capital_title_uses_last_two_patterns
           (doc ["# Copilot Basics"; "Ask it."]) "Copilot Basics").
  vm_compute. discriminate.
Defined.


(** * A heading of the title in the document *)

Section HeadingSection.
Implicit Types (full_docs title line s h : string) (c : ascii).

Lemma count_char_app c (a b : string) :
  count_char c (a +:+ b) = count_char c a + count_char c b.
Proof.
  induction a as [|d a IH]; [done|]. rewrite sapp_cons. simpl.
  rewrite IH. lia.
Qed.

Lemma count_char_occurs c (p s : string) :
  occurs_in p s → count_char c p ≤ count_char c s.
Proof. intros (a & b & ->). rewrite !count_char_app. lia. Qed.

Lemma lower_char_hash c :
  Ascii.eqb (Py.lower_char c) "#" = Ascii.eqb c "#".
Proof. by destruct c as [[] [] [] [] [] [] [] []]. Qed.

(** Lowercasing adds and removes no hash. *)
Lemma count_hash_lower s :
  count_char "#" (Py.lower s) = count_char "#" s.
Proof.
  induction s as [|c s IH]; [done|]. simpl. by rewrite lower_char_hash, IH.
Qed.

(** The placeholder holds the hashes of the title and no other. *)
Lemma count_hash_not_found title :
  count_char "#" (not_found title) = count_char "#" title.
Proof. unfold not_found. rewrite !count_char_app. simpl. lia. Qed.

(** The first pattern cannot occur in the lowercased placeholder: it holds
    one hash more. *)
Lemma header_pattern_not_in_placeholder title :
  ¬ occurs_in ("# " +:+ title) (Py.lower (not_found title)).
Proof.
  intros Hocc%(count_char_occurs "#").
  rewrite count_hash_lower, count_hash_not_found, count_char_app in Hocc.
  simpl in Hocc. lia.
Qed.

(** The search, when the first line that holds the first pattern is known. *)
Lemma find_section_at_header full_docs title (i : nat) line :
  Py.split LF full_docs !! i = Some line →
  Py.contains ("# " +:+ title) (Py.lower line) = true →
  Forall (λ l, Py.contains ("# " +:+ title) (Py.lower l) = false)
         (take i (Py.split LF full_docs)) →
  _find_section_content full_docs title
  = Some (Py.join NL (section_lines line (drop (S i) (Py.split LF full_docs)))).
Proof.
  intros Hi Hm Hpre. unfold _find_section_content, patterns_to_try. simpl.
  rewrite (scan_lines_at ("# " +:+ title) _ i line); try done.
  - by rewrite accumulate_section_lines.
  - eapply Forall_impl; [exact Hpre|]. intros l Hl. simpl in Hl.
    by rewrite line_matches_contains.
  - by rewrite line_matches_contains.
Qed.

Lemma section_lines_head line (rest : list string) :
  ∃ tl, section_lines line rest = line :: tl.
Proof. unfold section_lines. destruct (_ <? 100); by eexists. Qed.

(** For a title in lower case with a heading in the document, the text
    found starts at a line that holds the first pattern, and so is not the
    placeholder. *)
Lemma lower_title_not_placeholder full_docs title h s :
  heading_prefix h → Py.lower title = title →
  (h +:+ title) ∈ Py.split LF full_docs →
  _find_section_content full_docs title = Some s →
  s ≠ not_found title.
Proof.
  intros Hh Hfix Hin Hfind Heq.
  assert (Hscan : scan_lines ("# " +:+ title) (Py.split LF full_docs) = Some s).
  { assert (Hsome : is_Some (scan_lines ("# " +:+ title) (Py.split LF full_docs))).
    { apply scan_lines_Some, Exists_exists. exists (h +:+ title).
      split; [done | by apply heading_matches_first_pattern]. }
    destruct Hsome as [s' Hs']. revert Hfind.
    unfold _find_section_content, patterns_to_try. simpl. rewrite Hs'.
    by intros [= ->]. }
  destruct (scan_lines_closed _ _ _ Hscan) as (i & line & _ & Hm & _ & Hs).
  rewrite line_matches_contains, contains_spec in Hm.
  apply (header_pattern_not_in_placeholder title). rewrite <- Heq, Hs.
  eapply occurs_in_trans; [exact Hm|]. apply lower_occurs.
  apply join_elem_occurs.
  destruct (section_lines_head line (drop (S i) (Py.split LF full_docs)))
    as [tl ->]. by left.
Qed.
End HeadingSection.

(** C2 (amended): if a heading of the title ("# ", "## " or "### " followed
    by the title) occurs verbatim as a line of the document, the search
    returns a non-empty string, which is what the extraction stores for the
    title instead of taking its not-found branch.  For a title in lower case
    the string is not the placeholder, and it starts with that heading line
    whenever no earlier line holds "# " followed by the title (case of the
    line aside).  For any title it starts with that heading line, and is not
    the placeholder, when no earlier line mentions the title at all. *)
Theorem C2_heading_present (full_docs title h : string) :
  heading_prefix h →
  (h +:+ title) ∈ Py.split LF full_docs →
  ∃ s,
    _find_section_content full_docs title = Some s
    ∧ Py.truthy s = true
    ∧ (∀ section_titles, title ∈ section_titles →
         _extract_sections_from_docs full_docs section_titles !! title = Some s)
    ∧ (Py.lower title = title →
         s ≠ not_found title
         ∧ ∀ i, Py.split LF full_docs !! i = Some (h +:+ title) →
             Forall (λ l, Py.contains ("# " +:+ title) (Py.lower l) = false)
                    (take i (Py.split LF full_docs)) →
             ∃ tl, Py.split LF s = (h +:+ title) :: tl)
    ∧ (∀ i, Py.split LF full_docs !! i = Some (h +:+ title) →
         Forall (λ l, Py.contains (Py.lower title) (Py.lower l) = false)
                (take i (Py.split LF full_docs)) →
         (∃ tl, Py.split LF s = (h +:+ title) :: tl) ∧ s ≠ not_found title).
Proof.
  intros Hh Hin.
  destruct (heading_present_found _ _ _ Hh Hin) as (s & Hfind & Htruthy).
  pose proof (split_no_sep LF full_docs) as Hfree.
  assert (Hheading : has_char LF (h +:+ title) = false)
    by (rewrite Forall_forall in Hfree; by apply Hfree).
  exists s. split; [done|]. split; [done|]. split; [|split].
  - intros titles Ht. rewrite extract_lookup, decide_True by done.
    unfold section_entry. by rewrite Hfind, Htruthy.
  - intros Hfix. split; [by eapply lower_title_not_placeholder|].
    intros i Hi Hpre.
    assert (Hm : Py.contains ("# " +:+ title) (Py.lower (h +:+ title)) = true).
    { rewrite <- line_matches_contains. by apply heading_matches_first_pattern. }
    pose proof (find_section_at_header _ _ _ _ Hi Hm Hpre) as Hfind'.
    assert (Hs : s = Py.join NL (section_lines (h +:+ title)
                                   (drop (S i) (Py.split LF full_docs))))
      by congruence.
    destruct (section_lines_head (h +:+ title) (drop (S i) (Py.split LF full_docs)))
      as [tl Htl].
    exists tl. rewrite Hs, <- Htl. apply split_join.
    + by rewrite Htl.
    + apply section_lines_free; [done | by apply Forall_drop].
  - intros i Hi Hpre.
    destruct (heading_first_mention _ _ _ _ Hh Hi Hpre) as (n & b & Hfind').
    set (tl := take n (drop (S i) (Py.split LF full_docs)) ++ marker_if b) in *.
    assert (Hs : s = Py.join NL ((h +:+ title) :: tl)) by congruence.
    split.
    + exists tl. rewrite Hs. apply split_join; [done|].
      constructor; [done|]. apply Forall_app. split.
      * apply Forall_take, Forall_drop, split_no_sep.
      * destruct b; simpl; [|constructor].
        constructor; [apply marker_free | constructor].
    + rewrite Hs. unfold not_found.
      destruct Hh as [->|[->| ->]]; by destruct tl.
Qed.

Lemma C2_heading_present_witness :
  ∃ s,
    _find_section_content (doc ["all about setup"; "## setup"; "run it"; "# end"]) "setup"
    = Some s
    ∧ Py.truthy s = true
    ∧ (∀ section_titles, "setup" ∈ section_titles →
         _extract_sections_from_docs (doc ["all about setup"; "## setup"; "run it"; "# end"])
           section_titles !! "setup" = Some s)
    ∧ (Py.lower "setup" = "setup" →
         s ≠ not_found "setup"
         ∧ ∀ i, Py.split LF (doc ["all about setup"; "## setup"; "run it"; "# end"]) !! i
                = Some ("## " +:+ "setup") →
             Forall (λ l, Py.contains ("# " +:+ "setup") (Py.lower l) = false)
                    (take i (Py.split LF (doc ["all about setup"; "## setup"; "run it"; "# end"]))) →
             ∃ tl, Py.split LF s = ("## " +:+ "setup") :: tl)
    ∧ (∀ i, Py.split LF (doc ["all about setup"; "## setup"; "run it"; "# end"]) !! i
            = Some ("## " +:+ "setup") →
         Forall (λ l, Py.contains (Py.lower "setup") (Py.lower l) = false)
                (take i (Py.split LF (doc ["all about setup"; "## setup"; "run it"; "# end"]))) →
         (∃ tl, Py.split LF s = ("## " +:+ "setup") :: tl) ∧ s ≠ not_found "setup").
Proof.
  apply (C2_heading_present (doc ["all about setup"; "## setup"; "run it"; "# end"])
           "setup" "## ").
  - right. by left.
  - vm_compute. set_solver.
Defined.
